(** * Limitless canvas text editor: viewport, gestures and note collection

    A shallow embedding of the state-carrying logic of [src/App.tsx],
    [src/components/Canvas.tsx] and [src/components/Note.tsx], and the
    properties of the viewport transform, the pan / zoom / drag / resize
    gestures and the note collection.

    Modelling conventions.
    - A TypeScript [number] is an exact rational ([Q]); [==] is [Qeq].
      Rounding, [NaN] and the infinities of IEEE doubles are outside the
      model, so every equation below is one of exact arithmetic.
    - React state is passed explicitly: a handler is a function from the
      state it reads to the state it leaves.  A functional update
      [setX(prev => ...)] reads [prev]; a value read from the render closure
      is a separate argument wherever the source distinguishes the two.
    - [useRef] cells are fields of the component's state record.
    - A child component calls back into [App] through its props; here a
      handler returns the [Command]s it issues and [App.exec] runs them.
    - The clock ([Date.now]) and the random source ([Math.random]) are
      inputs of the handler that reads them. *)

From Stdlib Require Import QArith Qminmax Lqa ZArith List String Bool.
From Stdlib Require Import DecimalString.
Import ListNotations.

Local Open Scope Q_scope.

(** ** Numbers *)

(** [Math.max] and [Math.min] on two arguments. *)
Definition Math_max (a b : Q) : Q := Qmax a b.
Definition Math_min (a b : Q) : Q := Qmin a b.

(** A pair of coordinates, as the [{ x, y }] objects held by the refs. *)
Record Point : Type := mkPoint { px : Q; py : Q }.

Definition pt_eq (p q : Point) : Prop := px p == px q /\ py p == py q.

(** ** types/note.ts *)

Record Note : Type := mkNote {
  id : string;
  x : Q;
  y : Q;
  content : string;
  width : Q;
  height : Q;
  color : string;
  createdAt : Q
}.

Record CanvasState : Type := mkCanvasState {
  scale : Q;
  offsetX : Q;
  offsetY : Q
}.

(** [Partial<Note>]: every key is optional; [None] is an absent key. *)
Record PartialNote : Type := mkPartial {
  p_id : option string;
  p_x : option Q;
  p_y : option Q;
  p_content : option string;
  p_width : option Q;
  p_height : option Q;
  p_color : option string;
  p_createdAt : option Q
}.

Definition no_updates : PartialNote :=
  mkPartial None None None None None None None None.

(** One key of an object spread: the later object wins when it has the
    key. *)
Definition override {A : Type} (later : option A) (earlier : A) : A :=
  match later with
  | Some v => v
  | None => earlier
  end.

(** [{ ...note, ...updates }]. *)
Definition spread (note : Note) (updates : PartialNote) : Note :=
  {| id := override (p_id updates) (id note);
     x := override (p_x updates) (x note);
     y := override (p_y updates) (y note);
     content := override (p_content updates) (content note);
     width := override (p_width updates) (width note);
     height := override (p_height updates) (height note);
     color := override (p_color updates) (color note);
     createdAt := override (p_createdAt updates) (createdAt note) |}.

(** What a component asks of [App] through its callback props. *)
Inductive Command : Type :=
| OnAddNote (x y : Q) (color : option string)
| OnUpdateNote (id : string) (updates : PartialNote)
| OnDeleteNote (id : string)
| OnSelectNote (id : option string).

(** ** App.tsx *)

Module App.

Definition NOTE_COLORS : list string :=
  ["yellow"; "blue"; "green"; "pink"; "purple"; "orange"]%string.

Record State : Type := mkState {
  notes : list Note;
  selectedNoteId : option string;
  nextColorIndex : nat
}.

(** [useState] initial values. *)
Definition initial : State :=
  {| notes := []; selectedNoteId := None; nextColorIndex := 0 |}.

(** What one call of [handleAddNote] reads from the outside world:
    [Date.now()] inside [generateId], the text of
    [Math.random().toString(36)], and the second [Date.now()] that
    becomes [createdAt]. *)
Record Env : Type := mkEnv {
  now_id : Z;
  random36 : string;
  now_created : Z
}.

Definition decimal (n : Z) : string := NilZero.string_of_int (Z.to_int n).

(** [`note-${Date.now()}-${Math.random().toString(36).substr(2, 9)}`] *)
Definition generateId (env : Env) : string :=
  ("note-" ++ decimal (now_id env) ++ "-" ++ substring 2 9 (random36 env))%string.

(** [noteColor || NOTE_COLORS[nextColorIndex % NOTE_COLORS.length]]:
    an absent or empty colour is falsy. *)
Definition pickColor (noteColor : option string) (index : nat) : string :=
  let fallback := nth (Nat.modulo index (List.length NOTE_COLORS)) NOTE_COLORS ""%string in
  match noteColor with
  | Some c => if String.eqb c "" then fallback else c
  | None => fallback
  end.

Definition newNote (env : Env) (x y : Q) (color : string) : Note :=
  {| id := generateId env;
     x := x;
     y := y;
     content := "";
     width := 300;
     height := 200;
     color := color;
     createdAt := inject_Z (now_created env) |}.

Definition handleAddNote (env : Env) (x y : Q) (noteColor : option string)
    (st : State) : State :=
  let color := pickColor noteColor (nextColorIndex st) in
  let note := newNote env x y color in
  {| notes := notes st ++ [note];
     selectedNoteId := Some (id note);
     nextColorIndex := S (nextColorIndex st) |}.

(** The updater passed to [setNotes] by [handleUpdateNote]. *)
Definition updateNotes (id0 : string) (updates : PartialNote)
    (prev : list Note) : list Note :=
  map (fun note => if String.eqb (id note) id0 then spread note updates else note)
      prev.

Definition handleUpdateNote (id0 : string) (updates : PartialNote)
    (st : State) : State :=
  {| notes := updateNotes id0 updates (notes st);
     selectedNoteId := selectedNoteId st;
     nextColorIndex := nextColorIndex st |}.

(** The updater passed to [setNotes] by [handleDeleteNote]. *)
Definition removeNote (id0 : string) (prev : list Note) : list Note :=
  filter (fun note => negb (String.eqb (id note) id0)) prev.

(** [selectedNoteId === id] for a [string | null] against a [string]. *)
Definition isSelected (sel : option string) (id0 : string) : bool :=
  match sel with
  | Some s => String.eqb s id0
  | None => false
  end.

Definition handleDeleteNote (id0 : string) (st : State) : State :=
  {| notes := removeNote id0 (notes st);
     selectedNoteId :=
       if isSelected (selectedNoteId st) id0 then None else selectedNoteId st;
     nextColorIndex := nextColorIndex st |}.

Definition handleSelectNote (id0 : option string) (st : State) : State :=
  {| notes := notes st;
     selectedNoteId := id0;
     nextColorIndex := nextColorIndex st |}.

(** The part of a [KeyboardEvent] that [handleKeyDown] reads;
    [inEditable] is the test on [e.target] (an input, a textarea or a
    content-editable element). *)
Record KeyboardEvent : Type := mkKeyboardEvent {
  key : string;
  inEditable : bool
}.

(** A [string | null] used as a condition: [null] and the empty string are
    falsy. *)
Definition truthy (sel : option string) : option string :=
  match sel with
  | Some s => if String.eqb s "" then None else Some s
  | None => None
  end.

Definition escapeKey (e : KeyboardEvent) (st : State) : State :=
  if String.eqb (key e) "Escape" then handleSelectNote None st else st.

Definition handleKeyDown (e : KeyboardEvent) (st : State) : State :=
  if String.eqb (key e) "Delete" || String.eqb (key e) "Backspace" then
    match truthy (selectedNoteId st) with
    | Some sel =>
        if inEditable e then st
        else escapeKey e (handleDeleteNote sel st)
    | None => escapeKey e st
    end
  else escapeKey e st.

(** Running the callback a child invoked. *)
Definition exec (env : Env) (c : Command) (st : State) : State :=
  match c with
  | OnAddNote x y color => handleAddNote env x y color st
  | OnUpdateNote id0 updates => handleUpdateNote id0 updates st
  | OnDeleteNote id0 => handleDeleteNote id0 st
  | OnSelectNote id0 => handleSelectNote id0 st
  end.

(** Running, in order, the callbacks one event handler invoked. *)
Definition execAll (env : Env) (cs : list Command) (st : State) : State :=
  fold_left (fun s c => exec env c s) cs st.

End App.

(** ** DOM events *)

(** Where the pointer was when the event fired: enough of [e.target] to
    decide [e.target === canvasRef.current] and the [closest(...)] tests of
    the note component. *)
Inductive Target : Type :=
| CanvasBackground
| NoteBody
| NoteToolbar
| NoteDelete
| NoteEditor
| ResizeHandle.

Record MouseEvent : Type := mkMouseEvent {
  button : Z;
  clientX : Q;
  clientY : Q;
  ctrlKey : bool;
  metaKey : bool;
  target : Target
}.

Record WheelEvent : Type := mkWheelEvent {
  pointer :> MouseEvent;
  deltaY : Q
}.

(** The part of [getBoundingClientRect()] the handlers read. *)
Record DOMRect : Type := mkDOMRect {
  left : Q;
  top : Q;
  rectWidth : Q;
  rectHeight : Q
}.

Definition onCanvas (e : MouseEvent) : bool :=
  match target e with
  | CanvasBackground => true
  | _ => false
  end.

(** ** components/Canvas.tsx *)

Module Canvas.

Definition MIN_SCALE : Q := 0.25.
Definition MAX_SCALE : Q := 3.
Definition ZOOM_STEP : Q := 0.1.

Definition NOTE_COLORS : list string :=
  ["navy"; "teal"; "navy"; "teal"; "navy"; "teal"]%string.

Record State : Type := mkState {
  canvasState : CanvasState;
  isPanning : bool;
  nextColorIndex : nat;
  panStartRef : Point;
  canvasStartRef : Point
}.

Definition initial : State :=
  {| canvasState := {| scale := 1; offsetX := 0; offsetY := 0 |};
     isPanning := false;
     nextColorIndex := 0;
     panStartRef := mkPoint 0 0;
     canvasStartRef := mkPoint 0 0 |}.

(** [setCanvasState(prev => f(prev))]. *)
Definition setCanvasState (f : CanvasState -> CanvasState) (st : State) : State :=
  {| canvasState := f (canvasState st);
     isPanning := isPanning st;
     nextColorIndex := nextColorIndex st;
     panStartRef := panStartRef st;
     canvasStartRef := canvasStartRef st |}.

Definition setNextColorIndex (f : nat -> nat) (st : State) : State :=
  {| canvasState := canvasState st;
     isPanning := isPanning st;
     nextColorIndex := f (nextColorIndex st);
     panStartRef := panStartRef st;
     canvasStartRef := canvasStartRef st |}.

Definition setIsPanning (b : bool) (st : State) : State :=
  {| canvasState := canvasState st;
     isPanning := b;
     nextColorIndex := nextColorIndex st;
     panStartRef := panStartRef st;
     canvasStartRef := canvasStartRef st |}.

(** The guard of [handleCanvasMouseDown]: middle button anywhere, or
    primary button on the empty canvas. *)
Definition startsPan (e : MouseEvent) : bool :=
  Z.eqb (button e) 1 || (Z.eqb (button e) 0 && onCanvas e).

Definition handleCanvasMouseDown (e : MouseEvent) (st : State)
    : State * list Command :=
  if startsPan e then
    ({| canvasState := canvasState st;
        isPanning := true;
        nextColorIndex := nextColorIndex st;
        panStartRef := {| px := clientX e; py := clientY e |};
        canvasStartRef := {| px := offsetX (canvasState st);
                             py := offsetY (canvasState st) |} |},
     [OnSelectNote None])
  else (st, []).

(** The window [mousemove] listener of the pan effect. *)
Definition handleMouseMove (e : MouseEvent) (st : State) : State :=
  if negb (isPanning st) then st
  else
    let deltaX := clientX e - px (panStartRef st) in
    let deltaY := clientY e - py (panStartRef st) in
    setCanvasState
      (fun prev => {| scale := scale prev;
                      offsetX := px (canvasStartRef st) + deltaX;
                      offsetY := py (canvasStartRef st) + deltaY |})
      st.

Definition handleMouseUp (st : State) : State := setIsPanning false st.

(** A run of [mousemove] events delivered to the pan listener. *)
Definition panMoves (moves : list MouseEvent) (st : State) : State :=
  fold_left (fun s e => handleMouseMove e s) moves st.

(** [e.deltaY > 0 ? -ZOOM_STEP : ZOOM_STEP] *)
Definition wheelDelta (e : WheelEvent) : Q :=
  if negb (Qle_bool (deltaY e) 0) then - ZOOM_STEP else ZOOM_STEP.

(** [handleWheel].  [closure] is the [canvasState] of the render that
    created the callback (its [scale] is read for [newScale] and
    [scaleRatio]); [prev] is the argument of the functional update (its
    offsets are read).  [rect] is [canvasRef.current?.getBoundingClientRect()]. *)
Definition handleWheel (closure : CanvasState) (rect : option DOMRect)
    (e : WheelEvent) (prev : CanvasState) : CanvasState :=
  if ctrlKey e || metaKey e then
    let delta := wheelDelta e in
    let newScale :=
      Math_max MIN_SCALE (Math_min MAX_SCALE (scale closure + delta)) in
    match rect with
    | Some rect =>
        let mouseX := clientX e - left rect in
        let mouseY := clientY e - top rect in
        let scaleRatio := newScale / scale closure in
        {| scale := newScale;
           offsetX := mouseX - (mouseX - offsetX prev) * scaleRatio;
           offsetY := mouseY - (mouseY - offsetY prev) * scaleRatio |}
    | None => prev
    end
  else prev.

Definition zoomIn (prev : CanvasState) : CanvasState :=
  {| scale := Math_min MAX_SCALE (scale prev + ZOOM_STEP);
     offsetX := offsetX prev;
     offsetY := offsetY prev |}.

Definition zoomOut (prev : CanvasState) : CanvasState :=
  {| scale := Math_max MIN_SCALE (scale prev - ZOOM_STEP);
     offsetX := offsetX prev;
     offsetY := offsetY prev |}.

(** The light-theme variant of the component also has these two. *)
Definition resetZoom (prev : CanvasState) : CanvasState :=
  {| scale := 1; offsetX := offsetX prev; offsetY := offsetY prev |}.

Definition centerCanvas (_ : CanvasState) : CanvasState :=
  {| scale := 1; offsetX := 0; offsetY := 0 |}.

Definition nextColor (st : State) : string :=
  nth (Nat.modulo (nextColorIndex st) (List.length NOTE_COLORS)) NOTE_COLORS
      ""%string.

(** Toolbar button: a note centred in the viewport. *)
Definition handleAddNote (rect : option DOMRect) (st : State)
    : State * list Command :=
  match rect with
  | Some rect =>
      let v := canvasState st in
      let centerX := (rectWidth rect / 2 - offsetX v) / scale v in
      let centerY := (rectHeight rect / 2 - offsetY v) / scale v in
      let color := nextColor st in
      (setNextColorIndex S st,
       [OnAddNote (centerX - 150) (centerY - 100) (Some color)])
  | None => (st, [])
  end.

Definition handleDoubleClick (rect : DOMRect) (e : MouseEvent) (st : State)
    : State * list Command :=
  if onCanvas e then
    let v := canvasState st in
    let x := (clientX e - left rect - offsetX v) / scale v in
    let y := (clientY e - top rect - offsetY v) / scale v in
    let color := nextColor st in
    (setNextColorIndex S st, [OnAddNote (x - 150) (y - 50) (Some color)])
  else (st, []).

(** The screen-to-world conversion that [handleDoubleClick] and
    [handleAddNote] spell out inline, on a point given relative to the
    canvas element. *)
Definition toWorld (p : Point) (v : CanvasState) : Point :=
  {| px := (px p - offsetX v) / scale v;
     py := (py p - offsetY v) / scale v |}.

(** The transform container's
    [translate(offsetX px, offsetY px) scale(scale)] with its origin at the
    top left: where a world point is drawn. *)
Definition toScreen (w : Point) (v : CanvasState) : Point :=
  {| px := px w * scale v + offsetX v;
     py := py w * scale v + offsetY v |}.

(** The pointer position relative to the canvas element. *)
Definition anchorOf (rect : DOMRect) (e : MouseEvent) : Point :=
  {| px := clientX e - left rect; py := clientY e - top rect |}.

(** The zoom gestures, as the user can chain them.  Each wheel event is
    handled by the callback of the current render, so its closure is the
    state it updates. *)
Inductive ZoomOp : Type :=
| Wheel (rect : option DOMRect) (e : WheelEvent)
| ZoomIn
| ZoomOut
| ResetZoom
| CenterCanvas.

Definition applyZoom (v : CanvasState) (op : ZoomOp) : CanvasState :=
  match op with
  | Wheel rect e => handleWheel v rect e v
  | ZoomIn => zoomIn v
  | ZoomOut => zoomOut v
  | ResetZoom => resetZoom v
  | CenterCanvas => centerCanvas v
  end.

Definition zoomSequence (ops : list ZoomOp) (v : CanvasState) : CanvasState :=
  fold_left applyZoom ops v.

Definition inBounds (s : Q) : Prop := MIN_SCALE <= s /\ s <= MAX_SCALE.

End Canvas.

(** ** components/Note.tsx *)

Module NoteComponent.

Record Props : Type := mkProps {
  note : Note;
  canvasScale : Q
}.

Record State : Type := mkState {
  isDragging : bool;
  dragStartRef : Point;
  noteStartRef : Point
}.

Definition initial : State :=
  {| isDragging := false;
     dragStartRef := mkPoint 0 0;
     noteStartRef := mkPoint 0 0 |}.

(** The three [closest(...)] tests that keep a press from starting a drag. *)
Definition intercepted (e : MouseEvent) : bool :=
  match target e with
  | NoteToolbar | NoteDelete | NoteEditor => true
  | _ => false
  end.

Definition handleMouseDown (props : Props) (e : MouseEvent) (st : State)
    : State * list Command :=
  if intercepted e then (st, [])
  else
    ({| isDragging := true;
        dragStartRef := {| px := clientX e; py := clientY e |};
        noteStartRef := {| px := x (note props); py := y (note props) |} |},
     [OnSelectNote (Some (id (note props)))]).

(** The window [mousemove] listener of the drag effect. *)
Definition handleMouseMove (props : Props) (e : MouseEvent) (st : State)
    : list Command :=
  if negb (isDragging st) then []
  else
    let deltaX := (clientX e - px (dragStartRef st)) / canvasScale props in
    let deltaY := (clientY e - py (dragStartRef st)) / canvasScale props in
    [OnUpdateNote (id (note props))
       {| p_id := None;
          p_x := Some (px (noteStartRef st) + deltaX);
          p_y := Some (py (noteStartRef st) + deltaY);
          p_content := None;
          p_width := None;
          p_height := None;
          p_color := None;
          p_createdAt := None |}].

Definition handleMouseUp (st : State) : State :=
  {| isDragging := false;
     dragStartRef := dragStartRef st;
     noteStartRef := noteStartRef st |}.

(** The editor's [onUpdate] callback; [html] is [editor.getHTML()]. *)
Definition editorOnUpdate (props : Props) (html : string) : Command :=
  OnUpdateNote (id (note props))
    {| p_id := None; p_x := None; p_y := None;
       p_content := Some html;
       p_width := None; p_height := None; p_color := None;
       p_createdAt := None |}.

(** The delete button's [onClick]. *)
Definition deleteOnClick (props : Props) : Command :=
  OnDeleteNote (id (note props)).

(** What the resize handle's [onMouseDown] closes over: the constants it
    declares and the props of the render it belongs to. *)
Record ResizeSession : Type := mkResize {
  startX : Q;
  startY : Q;
  startWidth : Q;
  startHeight : Q;
  resizeProps : Props
}.

Definition resizeMouseDown (props : Props) (e : MouseEvent) : ResizeSession :=
  {| startX := clientX e;
     startY := clientY e;
     startWidth := width (note props);
     startHeight := height (note props);
     resizeProps := props |}.

Definition handleResize (s : ResizeSession) (e : MouseEvent) : Command :=
  let deltaX := (clientX e - startX s) / canvasScale (resizeProps s) in
  let deltaY := (clientY e - startY s) / canvasScale (resizeProps s) in
  OnUpdateNote (id (note (resizeProps s)))
    {| p_id := None; p_x := None; p_y := None; p_content := None;
       p_width := Some (Math_max 200 (startWidth s + deltaX));
       p_height := Some (Math_max 100 (startHeight s + deltaY));
       p_color := None;
       p_createdAt := None |}.

End NoteComponent.

(** ** The board: what the mounted components ask of the collection *)

(** The note a given id denotes: the first match in display order. *)
Fixpoint findNote (id0 : string) (ns : list Note) : option Note :=
  match ns with
  | [] => None
  | n :: rest => if String.eqb (id n) id0 then Some n else findNote id0 rest
  end.

Definition sizeOk (n : Note) : Prop := 200 <= width n /\ 100 <= height n.

(** An update that cannot take a note below the minimum size: it either
    leaves a dimension alone or sets it to at least the minimum. *)
Definition sizePreserving (u : PartialNote) : Prop :=
  (forall w, p_width u = Some w -> 200 <= w)
  /\ (forall h, p_height u = Some h -> 100 <= h).

(** An update that carries neither an [id] nor a [createdAt] key. *)
Definition identityPreserving (u : PartialNote) : Prop :=
  p_id u = None /\ p_createdAt u = None.

(** A command that, if it is an update, touches neither the identity of a
    note nor its minimum size. *)
Definition wellBehaved (c : Command) : Prop :=
  match c with
  | OnUpdateNote _ u => identityPreserving u /\ sizePreserving u
  | _ => True
  end.

(** The commands that reach [App] through its callback props: one
    constructor per call site in [Canvas] and [Note] ([IssuedByClick]
    stands for both the layer row and the note's own [onClick]). *)
Inductive issued : Command -> Prop :=
| IssuedByPanStart e cst c :
    In c (snd (Canvas.handleCanvasMouseDown e cst)) -> issued c
| IssuedByAddButton rect cst c :
    In c (snd (Canvas.handleAddNote rect cst)) -> issued c
| IssuedByDoubleClick rect e cst c :
    In c (snd (Canvas.handleDoubleClick rect e cst)) -> issued c
| IssuedByClick (n : Note) :
    issued (OnSelectNote (Some (id n)))
| IssuedByNotePress props e st c :
    In c (snd (NoteComponent.handleMouseDown props e st)) -> issued c
| IssuedByDrag props e st c :
    In c (NoteComponent.handleMouseMove props e st) -> issued c
| IssuedByResize s e :
    issued (NoteComponent.handleResize s e)
| IssuedByEditor props html :
    issued (NoteComponent.editorOnUpdate props html)
| IssuedByDeleteButton props :
    issued (NoteComponent.deleteOnClick props).

(** The states of [App] the running application can be in. *)
Inductive reachable : App.State -> Prop :=
| ReachInitial : reachable App.initial
| ReachCommand env c st :
    reachable st -> issued c -> reachable (App.exec env c st)
| ReachKey e st :
    reachable st -> reachable (App.handleKeyDown e st).

(** ** Sample inputs *)

Module Sample.

Definition rect : DOMRect :=
  {| left := 160; top := 56; rectWidth := 1280; rectHeight := 720 |}.

Definition press (bx by_ : Q) (t : Target) : MouseEvent :=
  {| button := 0; clientX := bx; clientY := by_;
     ctrlKey := false; metaKey := false; target := t |}.

(** Ctrl + wheel up at client (460, 256). *)
Definition wheelUp : WheelEvent :=
  {| pointer := {| button := 0; clientX := 460; clientY := 256;
                   ctrlKey := true; metaKey := false;
                   target := CanvasBackground |};
     deltaY := -100 |}.

Definition panned : CanvasState :=
  {| scale := 2; offsetX := 100; offsetY := 50 |}.

(** Already at the upper zoom bound. *)
Definition zoomedIn : CanvasState :=
  {| scale := 3; offsetX := 100; offsetY := 50 |}.

Definition noteA : Note :=
  {| id := "a"; x := 100; y := 50; content := "";
     width := 300; height := 200; color := "navy"; createdAt := 1 |}.

Definition noteB : Note :=
  {| id := "b"; x := 500; y := 80; content := "";
     width := 300; height := 200; color := "teal"; createdAt := 2 |}.

Definition board : App.State :=
  {| App.notes := [noteA; noteB];
     App.selectedNoteId := Some "a"%string;
     App.nextColorIndex := 2 |}.

(** An update that tries to rename a note and change its creation time. *)
Definition rename : PartialNote :=
  {| p_id := Some "z"%string; p_x := None; p_y := None; p_content := None;
     p_width := None; p_height := None; p_color := None;
     p_createdAt := Some 99 |}.

(** An update that shrinks a note below the minimum size. *)
Definition shrink : PartialNote :=
  {| p_id := None; p_x := None; p_y := None; p_content := None;
     p_width := Some 50; p_height := Some 20; p_color := None;
     p_createdAt := None |}.

Definition moveTo (nx ny : Q) : PartialNote :=
  {| p_id := None; p_x := Some nx; p_y := Some ny; p_content := None;
     p_width := None; p_height := None; p_color := None;
     p_createdAt := None |}.

Definition doubleClick : MouseEvent := press 460 256 CanvasBackground.

(** What a double click on the empty canvas of a fresh board asks for. *)
Definition addCmd : Command :=
  hd (OnSelectNote None)
     (snd (Canvas.handleDoubleClick rect doubleClick Canvas.initial)).

Definition env : App.Env :=
  {| App.now_id := 1700000000000; App.random36 := "0.k3j9x1q7zab";
     App.now_created := 1700000000001 |}.


(** Note [noteA] as rendered on a canvas zoomed to 200%. *)
Definition propsA : NoteComponent.Props :=
  {| NoteComponent.note := noteA; NoteComponent.canvasScale := 2 |}.

Definition afterAdd : App.State := App.exec env addCmd App.initial.

(** The note component of the note just added, at scale 1. *)
Definition addedProps : NoteComponent.Props :=
  {| NoteComponent.note := hd noteA (App.notes afterAdd);
     NoteComponent.canvasScale := 1 |}.

(** Pressing the resize handle and dragging it 400 px up and to the left. *)
Definition resizeCmd : Command :=
  NoteComponent.handleResize
    (NoteComponent.resizeMouseDown addedProps (press 400 300 ResizeHandle))
    (press 0 (-100) ResizeHandle).

Definition afterResize : App.State := App.exec env resizeCmd afterAdd.

End Sample.

(** ** What is rendered *)

From Stdlib Require Import Qround Lia.

Module Render.

(** [Math.round]: the nearest integer, a half rounded up. *)
Definition Math_round (q : Q) : Z := Qfloor (q + (1 # 2)).

(** The zoom label between the two zoom buttons:
    [Math.round(canvasState.scale * 100)], shown with a percent sign. *)
Definition zoomPercent (v : CanvasState) : Z := Math_round (scale v * 100).

(** The numbers of the layers panel, in render order:
    [notes.map((note, index) => ... Layer {notes.length - index})]. *)
Fixpoint layerNumbersFrom (total index : nat) (ns : list Note) : list nat :=
  match ns with
  | [] => []
  | _ :: rest => (total - index)%nat :: layerNumbersFrom total (S index) rest
  end.

Definition layerNumbers (ns : list Note) : list nat :=
  layerNumbersFrom (List.length ns) 0 ns.

End Render.

(** ** How a press is routed *)

Module Routing.

(** What one [mousedown] leaves behind: the canvas and the note component
    it hit, the resize listener it may have installed, and the commands
    issued on the way. *)
Record Outcome : Type := mkOutcome {
  canvasAfter : Canvas.State;
  noteAfter : NoteComponent.State;
  resizeAfter : option NoteComponent.ResizeSession;
  commands : list Command
}.

(** The path of a [mousedown] through the three [onMouseDown] props, from
    the innermost element outwards.  The resize handle stops propagation
    at once; the note stops it unless one of its [closest(...)] tests made
    it return early, in which case the event bubbles on to the canvas
    container; a press on the empty canvas reaches the container only. *)
Definition mouseDown (props : NoteComponent.Props) (e : MouseEvent)
    (cst : Canvas.State) (nst : NoteComponent.State) : Outcome :=
  match target e with
  | ResizeHandle =>
      {| canvasAfter := cst;
         noteAfter := nst;
         resizeAfter := Some (NoteComponent.resizeMouseDown props e);
         commands := [] |}
  | CanvasBackground =>
      {| canvasAfter := fst (Canvas.handleCanvasMouseDown e cst);
         noteAfter := nst;
         resizeAfter := None;
         commands := snd (Canvas.handleCanvasMouseDown e cst) |}
  | _ =>
      let pressed := NoteComponent.handleMouseDown props e nst in
      if NoteComponent.intercepted e then
        {| canvasAfter := fst (Canvas.handleCanvasMouseDown e cst);
           noteAfter := fst pressed;
           resizeAfter := None;
           commands := snd pressed ++ snd (Canvas.handleCanvasMouseDown e cst) |}
      else
        {| canvasAfter := cst;
           noteAfter := fst pressed;
           resizeAfter := None;
           commands := snd pressed |}
  end.

(** How many gestures are live after a press. *)
Definition sessions (o : Outcome) : nat :=
  ((if Canvas.isPanning (canvasAfter o) then 1 else 0)
   + (if NoteComponent.isDragging (noteAfter o) then 1 else 0)
   + (match resizeAfter o with Some _ => 1 | None => 0 end))%nat.

End Routing.

(** ** Derived notions *)

(** Two viewports that agree as numbers. *)
Definition viewEq (a b : CanvasState) : Prop :=
  scale a == scale b /\ offsetX a == offsetX b /\ offsetY a == offsetY b.

(** One key of [{ ...u1, ...u2 }] on two partial objects. *)
Definition orElse {A : Type} (later earlier : option A) : option A :=
  match later with
  | Some v => Some v
  | None => earlier
  end.

(** [{ ...u1, ...u2 }]: the partial object equivalent to applying [u1] and
    then [u2]. *)
Definition spreadPartial (u1 u2 : PartialNote) : PartialNote :=
  {| p_id := orElse (p_id u2) (p_id u1);
     p_x := orElse (p_x u2) (p_x u1);
     p_y := orElse (p_y u2) (p_y u1);
     p_content := orElse (p_content u2) (p_content u1);
     p_width := orElse (p_width u2) (p_width u1);
     p_height := orElse (p_height u2) (p_height u1);
     p_color := orElse (p_color u2) (p_color u1);
     p_createdAt := orElse (p_createdAt u2) (p_createdAt u1) |}.

(** The three shapes of update object the note component builds. *)
Definition positionUpdate (nx ny : Q) : PartialNote :=
  {| p_id := None; p_x := Some nx; p_y := Some ny; p_content := None;
     p_width := None; p_height := None; p_color := None;
     p_createdAt := None |}.

Definition sizeUpdate (w h : Q) : PartialNote :=
  {| p_id := None; p_x := None; p_y := None; p_content := None;
     p_width := Some w; p_height := Some h; p_color := None;
     p_createdAt := None |}.

Definition contentUpdate (html : string) : PartialNote :=
  {| p_id := None; p_x := None; p_y := None; p_content := Some html;
     p_width := None; p_height := None; p_color := None;
     p_createdAt := None |}.

(** The selection, when there is one, names a note of the collection. *)
Definition selectionValid (st : App.State) : Prop :=
  match App.selectedNoteId st with
  | Some s => In s (map id (App.notes st))
  | None => True
  end.

(** A selection command that names a note of the collection (or clears
    the selection); any other command. *)
Definition selectsExisting (c : Command) (st : App.State) : Prop :=
  match c with
  | OnSelectNote (Some i) => In i (map id (App.notes st))
  | _ => True
  end.

Definition inPalette (n : Note) : Prop := In (color n) Canvas.NOTE_COLORS.

(** ** More sample inputs *)

Module Scenario.

Definition wheelAt (cx cy dy : Q) : WheelEvent :=
  {| pointer := {| button := 0; clientX := cx; clientY := cy;
                   ctrlKey := true; metaKey := false;
                   target := CanvasBackground |};
     deltaY := dy |}.

Definition middlePress (cx cy : Q) (t : Target) : MouseEvent :=
  {| button := 1; clientX := cx; clientY := cy;
     ctrlKey := false; metaKey := false; target := t |}.

(** At the lower zoom bound. *)
Definition zoomedOut : CanvasState :=
  {| scale := 0.25; offsetX := 100; offsetY := 50 |}.

Definition canvasAt (v : CanvasState) : Canvas.State :=
  Canvas.setCanvasState (fun _ => v) Canvas.initial.

Definition deleteKey : App.KeyboardEvent :=
  {| App.key := "Delete"; App.inEditable := false |}.

Definition backspaceInEditor : App.KeyboardEvent :=
  {| App.key := "Backspace"; App.inEditable := true |}.

Definition recolour : PartialNote :=
  {| p_id := None; p_x := None; p_y := None; p_content := None;
     p_width := None; p_height := None; p_color := Some "teal"%string;
     p_createdAt := None |}.

(** A note created at clock reading 1700000000000 with the random digits
    [k3j9x1q7z], and a board that holds it. *)
Definition earlier : Note :=
  {| id := "note-1700000000000-k3j9x1q7z"; x := 0; y := 0;
     content := "<p>first</p>"; width := 300; height := 200;
     color := "navy"; createdAt := 1700000000000 |}.

Definition taken : App.State :=
  {| App.notes := [earlier];
     App.selectedNoteId := None;
     App.nextColorIndex := 1 |}.

(** The viewport after one wheel zoom-in at [Sample.wheelUp] from the
    initial viewport. *)
Definition zoomedOnce : CanvasState :=
  Canvas.handleWheel (Canvas.canvasState Canvas.initial) (Some Sample.rect)
    Sample.wheelUp (Canvas.canvasState Canvas.initial).

(** The same wheel event handled a second time by the callback of the
    initial render: its closure is still the initial viewport, the state
    it updates is the viewport already zoomed once. *)
Definition zoomedTwiceInOneBatch : CanvasState :=
  Canvas.handleWheel (Canvas.canvasState Canvas.initial) (Some Sample.rect)
    Sample.wheelUp zoomedOnce.

End Scenario.

(** ** The wheel handler in the code's own arithmetic *)

From Stdlib Require Import Floats.

(** [handleWheel] once more, with every [number] an IEEE binary64 value
    and every operation rounded as JavaScript rounds it.  It is used to
    replay single events; [Math.max] and [Math.min] are given for ordinary
    numbers (no [NaN], no signed zero). *)
Module Binary64.

Local Open Scope float_scope.

Record CanvasState : Type := mkCanvasState {
  scale : float;
  offsetX : float;
  offsetY : float
}.

Record WheelEvent : Type := mkWheelEvent {
  ctrlKey : bool;
  metaKey : bool;
  clientX : float;
  clientY : float;
  deltaY : float
}.

Record DOMRect : Type := mkDOMRect {
  left : float;
  top : float
}.

Definition MIN_SCALE : float := 0.25.
Definition MAX_SCALE : float := 3.
Definition ZOOM_STEP : float := 0x1.999999999999ap-4. (* the double 0.1 *)

Definition Math_max (a b : float) : float := if PrimFloat.ltb a b then b else a.
Definition Math_min (a b : float) : float := if PrimFloat.ltb b a then b else a.

Definition handleWheel (closure : CanvasState) (rect : option DOMRect)
    (e : WheelEvent) (prev : CanvasState) : CanvasState :=
  if ctrlKey e || metaKey e then
    let delta := if PrimFloat.ltb 0 (deltaY e) then - ZOOM_STEP else ZOOM_STEP in
    let newScale :=
      Math_max MIN_SCALE (Math_min MAX_SCALE (scale closure + delta)) in
    match rect with
    | Some rect =>
        let mouseX := clientX e - left rect in
        let mouseY := clientY e - top rect in
        let scaleRatio := newScale / scale closure in
        {| scale := newScale;
           offsetX := mouseX - (mouseX - offsetX prev) * scaleRatio;
           offsetY := mouseY - (mouseY - offsetY prev) * scaleRatio |}
    | None => prev
    end
  else prev.

(** The inline screen-to-world conversion, on the horizontal axis. *)
Definition toWorldX (p : float) (v : CanvasState) : float :=
  (p - offsetX v) / scale v.

(** The viewport of a canvas just mounted. *)
Definition initial : CanvasState :=
  {| scale := 1; offsetX := 0; offsetY := 0 |}.

(** Ctrl + wheel up with the pointer 15 px from the left edge of a canvas
    element whose box starts at the window's origin. *)
Definition origin : DOMRect := {| left := 0; top := 0 |}.

Definition wheelUpAt15 : WheelEvent :=
  {| ctrlKey := true; metaKey := false;
     clientX := 15; clientY := 15; deltaY := -100 |}.

End Binary64.

(** ** Additions, with the render closure made explicit *)

Module AppClosure.

(** [App]'s [handleAddNote] as the callback of one render:
    [closureIndex] is the [nextColorIndex] that [useCallback] captured
    (it picks the colour), while the counter itself is advanced by the
    functional update [setNextColorIndex(prev => prev + 1)]. *)
Definition handleAddNote (closureIndex : nat) (env : App.Env) (x0 y0 : Q)
    (noteColor : option string) (st : App.State) : App.State :=
  let color := App.pickColor noteColor closureIndex in
  let note := App.newNote env x0 y0 color in
  {| App.notes := App.notes st ++ [note];
     App.selectedNoteId := Some (id note);
     App.nextColorIndex := S (App.nextColorIndex st) |}.

(** A request for a note without a colour: what the clock and the random
    source will answer, and where the note goes. *)
Definition Request : Type := (App.Env * Q * Q)%type.

(** Colourless additions, each handled by the callback of the render that
    followed the previous one. *)
Definition addsAfterRender (rs : list Request) (st : App.State) : App.State :=
  fold_left
    (fun s (r : Request) =>
       let '(env, x0, y0) := r in
       handleAddNote (App.nextColorIndex s) env x0 y0 None s)
    rs st.

(** Colourless additions all handled by the callback of one render. *)
Definition addsInOneBatch (closureIndex : nat) (rs : list Request)
    (st : App.State) : App.State :=
  fold_left
    (fun s (r : Request) =>
       let '(env, x0, y0) := r in
       handleAddNote closureIndex env x0 y0 None s)
    rs st.

(** The colour [App] falls back to at a given counter value. *)
Definition fallback (index : nat) : string :=
  nth (Nat.modulo index 6) App.NOTE_COLORS ""%string.

End AppClosure.

(** ** Additions made on the canvas *)

Module CanvasAdds.

(** The two ways of asking for a note on the canvas. *)
Inductive Gesture : Type :=
| ByButton (rect : option DOMRect)
| ByDoubleClick (rect : DOMRect) (e : MouseEvent).

Definition gesture (st : Canvas.State) (g : Gesture)
    : Canvas.State * list Command :=
  match g with
  | ByButton rect => Canvas.handleAddNote rect st
  | ByDoubleClick rect e => Canvas.handleDoubleClick rect e st
  end.

(** Gestures in sequence, each handled after the render that followed the
    previous one; the commands are collected in order. *)
Fixpoint gestures (gs : list Gesture) (st : Canvas.State)
    : Canvas.State * list Command :=
  match gs with
  | [] => (st, [])
  | g :: rest =>
      let first := gesture st g in
      let others := gestures rest (fst first) in
      (fst others, snd first ++ snd others)
  end.

(** The colour an addition asks for. *)
Definition colourAsked (c : Command) : option string :=
  match c with
  | OnAddNote _ _ col => col
  | _ => None
  end.

(** Navy at an even counter, teal at an odd one. *)
Definition turn (index : nat) : string :=
  if Nat.even index then "navy"%string else "teal"%string.

End CanvasAdds.

(** * Properties *)

(** ** Clamping *)

Ltac minmax :=
  unfold Math_max, Math_min, Canvas.inBounds, Canvas.MIN_SCALE,
    Canvas.MAX_SCALE, Canvas.ZOOM_STEP in *;
  repeat match goal with
  | |- context [Qmax ?a ?b] =>
      let H := fresh "Hmax" in
      destruct (Q.max_spec a b) as [[? H] | [? H]]; rewrite H in *
  | |- context [Qmin ?a ?b] =>
      let H := fresh "Hmin" in
      destruct (Q.min_spec a b) as [[? H] | [? H]]; rewrite H in *
  end.

Lemma Math_max_lower (a b : Q) : a <= Math_max a b.
Proof. apply Q.le_max_l. Qed.

Lemma clamp_inBounds (s : Q) :
  Canvas.inBounds
    (Math_max Canvas.MIN_SCALE (Math_min Canvas.MAX_SCALE s)).
Proof. minmax; lra. Qed.

Lemma inBounds_nonzero (s : Q) : Canvas.inBounds s -> ~ s == 0.
Proof. unfold Canvas.inBounds, Canvas.MIN_SCALE. intros [Hlo _]. lra. Qed.

Lemma handleWheel_inBounds closure rect e prev :
  Canvas.inBounds (scale prev) ->
  Canvas.inBounds (scale (Canvas.handleWheel closure rect e prev)).
Proof.
  intros Hprev. unfold Canvas.handleWheel.
  destruct (ctrlKey e || metaKey e); [|exact Hprev].
  destruct rect as [r|]; [|exact Hprev].
  cbn [scale]. apply clamp_inBounds.
Qed.

Lemma zoomIn_inBounds v :
  Canvas.inBounds (scale v) -> Canvas.inBounds (scale (Canvas.zoomIn v)).
Proof. intros [Hlo Hhi]. cbn [Canvas.zoomIn scale]. minmax; lra. Qed.

Lemma zoomOut_inBounds v :
  Canvas.inBounds (scale v) -> Canvas.inBounds (scale (Canvas.zoomOut v)).
Proof. intros [Hlo Hhi]. cbn [Canvas.zoomOut scale]. minmax; lra. Qed.

Lemma one_inBounds : Canvas.inBounds 1.
Proof. unfold Canvas.inBounds, Canvas.MIN_SCALE, Canvas.MAX_SCALE. lra. Qed.

Create HintDb bounds.
#[local] Hint Resolve clamp_inBounds handleWheel_inBounds zoomIn_inBounds
  zoomOut_inBounds one_inBounds : bounds.

Lemma applyZoom_inBounds v op :
  Canvas.inBounds (scale v) -> Canvas.inBounds (scale (Canvas.applyZoom v op)).
Proof. intros Hv. destruct op; cbn [Canvas.applyZoom]; auto with bounds. Qed.

Lemma zoomSequence_inBounds ops : forall v,
  Canvas.inBounds (scale v) ->
  Canvas.inBounds (scale (Canvas.zoomSequence ops v)).
Proof.
  unfold Canvas.zoomSequence.
  induction ops as [|op ops IH]; intros v Hv; cbn [fold_left].
  - exact Hv.
  - apply IH. now apply applyZoom_inBounds.
Qed.

(** ** Zoom bounds *)

(** C3.  From the initial scale 1, whatever sequence of wheel zooms,
    zoom-in and zoom-out clicks (and resets) is applied, the scale stays
    within [MIN_SCALE, MAX_SCALE] = [0.25, 3]; and one hundred zoom-in
    clicks leave the scale at exactly 3. *)
Theorem zoom_scale_stays_in_bounds (ops : list Canvas.ZoomOp) :
  Canvas.inBounds
    (scale (Canvas.zoomSequence ops (Canvas.canvasState Canvas.initial)))
  /\ scale (Canvas.zoomSequence (repeat Canvas.ZoomIn 100)
                                (Canvas.canvasState Canvas.initial)) = 3.
Proof.
  split.
  - apply zoomSequence_inBounds. exact one_inBounds.
  - vm_compute. reflexivity.
Qed.

(** ** Screen and world coordinates *)

Lemma handleDoubleClick_toWorld rect e st :
  onCanvas e = true ->
  let w := Canvas.toWorld (Canvas.anchorOf rect e) (Canvas.canvasState st) in
  snd (Canvas.handleDoubleClick rect e st)
  = [OnAddNote (px w - 150) (py w - 50) (Some (Canvas.nextColor st))].
Proof. intros H. unfold Canvas.handleDoubleClick. rewrite H. reflexivity. Qed.

(** C2.  For a scale within the zoom bounds, drawing the world point that
    a screen point converts to gives that screen point back. *)
Theorem toScreen_toWorld (p : Point) (v : CanvasState) :
  Canvas.inBounds (scale v) ->
  pt_eq (Canvas.toScreen (Canvas.toWorld p v) v) p.
Proof.
  intros Hv. apply inBounds_nonzero in Hv.
  unfold pt_eq, Canvas.toScreen, Canvas.toWorld; cbn [px py].
  split; field; exact Hv.
Qed.

Lemma toScreen_toWorld_witness :
  Canvas.inBounds (scale Sample.panned)
  /\ pt_eq (Canvas.toScreen (Canvas.toWorld (mkPoint 300 200) Sample.panned)
                            Sample.panned)
           (mkPoint 300 200).
Proof.
  assert (H : Canvas.inBounds (scale Sample.panned)).
  { unfold Canvas.inBounds, Canvas.MIN_SCALE, Canvas.MAX_SCALE, Sample.panned.
    cbn [scale]. split; lra. }
  split; [exact H | exact (toScreen_toWorld (mkPoint 300 200) Sample.panned H)].
Defined.

Lemma toWorld_toScreen (w : Point) (v : CanvasState) :
  Canvas.inBounds (scale v) ->
  pt_eq (Canvas.toWorld (Canvas.toScreen w v) v) w.
Proof.
  intros Hv. apply inBounds_nonzero in Hv.
  unfold pt_eq, Canvas.toScreen, Canvas.toWorld; cbn [px py].
  split; field; exact Hv.
Qed.

(** ** Wheel zoom *)

Lemma wheelDelta_cases (e : WheelEvent) :
  Canvas.wheelDelta e = - Canvas.ZOOM_STEP
  \/ Canvas.wheelDelta e = Canvas.ZOOM_STEP.
Proof. unfold Canvas.wheelDelta. destruct (Qle_bool (deltaY e) 0); auto. Qed.

(** Without Ctrl or Meta the wheel event does not touch the viewport. *)
Lemma handleWheel_passthrough closure rect (e : WheelEvent) prev :
  ctrlKey e || metaKey e = false ->
  Canvas.handleWheel closure rect e prev = prev.
Proof. intros H. unfold Canvas.handleWheel. now rewrite H. Qed.

(** The offset formula keeps the anchor over the same world point for any
    non-zero old and new scale. *)
Lemma anchored_offset_fixes_world (a o s s' : Q) :
  ~ s == 0 -> ~ s' == 0 ->
  (a - (a - (a - o) * (s' / s))) / s' == (a - o) / s.
Proof. intros Hs Hs'. field. split; assumption. Qed.

(** C1, amended.  In exact arithmetic, a wheel event with Ctrl or Meta
    held, handled by the callback of the render that shows the viewport it
    updates (closure and updated state are the same [v]), on a viewport
    whose scale is within the bounds, sets the scale to the clamped sum of
    the old scale and the event's step, moves each offset to
    [anchor - (anchor - offset) * (newScale / scale)], and leaves the world
    point under the pointer where it was, clamped or not. *)
Theorem handleWheel_keeps_anchor (v : CanvasState) (rect : DOMRect)
    (e : WheelEvent) :
  Canvas.inBounds (scale v) ->
  ctrlKey e || metaKey e = true ->
  let a := Canvas.anchorOf rect e in
  let f := Canvas.wheelDelta e in
  let v' := Canvas.handleWheel v (Some rect) e v in
  scale v' = Math_max Canvas.MIN_SCALE (Math_min Canvas.MAX_SCALE (scale v + f))
  /\ offsetX v' = px a - (px a - offsetX v) * (scale v' / scale v)
  /\ offsetY v' = py a - (py a - offsetY v) * (scale v' / scale v)
  /\ pt_eq (Canvas.toWorld a v') (Canvas.toWorld a v).
Proof.
  intros Hv Hmod a f v'.
  subst v'. unfold Canvas.handleWheel. rewrite Hmod.
  cbn [scale offsetX offsetY]. fold f.
  repeat split; try reflexivity;
    unfold Canvas.toWorld; cbn [px py scale offsetX offsetY];
    apply anchored_offset_fixes_world;
    try (now apply inBounds_nonzero);
    apply inBounds_nonzero, clamp_inBounds.
Qed.

Lemma handleWheel_keeps_anchor_witness :
  (Canvas.inBounds (scale Sample.panned)
   /\ scale (Canvas.handleWheel Sample.panned (Some Sample.rect) Sample.wheelUp
                                 Sample.panned) == 2.1
   /\ pt_eq (Canvas.toWorld (Canvas.anchorOf Sample.rect Sample.wheelUp)
                (Canvas.handleWheel Sample.panned (Some Sample.rect)
                                    Sample.wheelUp Sample.panned))
            (mkPoint 100 75))
  /\ (Canvas.inBounds (scale Sample.zoomedIn)
      /\ scale (Canvas.handleWheel Sample.zoomedIn (Some Sample.rect)
                                    Sample.wheelUp Sample.zoomedIn) == 3
      /\ pt_eq (Canvas.toWorld (Canvas.anchorOf Sample.rect Sample.wheelUp)
                   (Canvas.handleWheel Sample.zoomedIn (Some Sample.rect)
                                       Sample.wheelUp Sample.zoomedIn))
               (Canvas.toWorld (Canvas.anchorOf Sample.rect Sample.wheelUp)
                               Sample.zoomedIn)).
Proof.
  assert (H2 : Canvas.inBounds (scale Sample.panned)).
  { unfold Canvas.inBounds, Canvas.MIN_SCALE, Canvas.MAX_SCALE, Sample.panned.
    cbn [scale]. split; lra. }
  assert (H3 : Canvas.inBounds (scale Sample.zoomedIn)).
  { unfold Canvas.inBounds, Canvas.MIN_SCALE, Canvas.MAX_SCALE,
      Sample.zoomedIn.
    cbn [scale]. split; lra. }
  pose proof (handleWheel_keeps_anchor Sample.panned Sample.rect
                Sample.wheelUp H2 eq_refl) as (Hs & _ & _ & Hw).
  pose proof (handleWheel_keeps_anchor Sample.zoomedIn Sample.rect
                Sample.wheelUp H3 eq_refl) as (Hs' & _ & _ & Hw').
  split; (split; [assumption | split]).
  - rewrite Hs. vm_compute. reflexivity.
  - destruct Hw as [Hx Hy]. split.
    + rewrite Hx. vm_compute. reflexivity.
    + rewrite Hy. vm_compute. reflexivity.
  - rewrite Hs'. vm_compute. reflexivity.
  - exact Hw'.
Defined.

(** C1, as stated, fails on the code in two ways.  In the code's binary64
    arithmetic, one Ctrl + wheel up on a canvas just mounted, with the
    pointer at 15, moves the world point under the pointer from 15 to
    14.999999999999998.  And in exact arithmetic, a second wheel event
    handled by the same callback as the first (before the next render)
    takes its scale from the closure, so the scale stays at 1.1 instead of
    going to 1.2 and the world point under the pointer moves from
    (300, 200) to (330, 220). *)
Lemma wheel_moves_point_under_pointer :
  (Binary64.toWorldX 15 Binary64.initial = 15%float
   /\ Binary64.toWorldX 15
        (Binary64.handleWheel Binary64.initial (Some Binary64.origin)
           Binary64.wheelUpAt15 Binary64.initial)
      = 0x1.dffffffffffffp+3%float
   /\ PrimFloat.ltb 0x1.dffffffffffffp+3 15 = true)
  /\ (pt_eq (Canvas.toWorld (Canvas.anchorOf Sample.rect Sample.wheelUp)
               Scenario.zoomedOnce)
            (mkPoint 300 200)
      /\ pt_eq (Canvas.toWorld (Canvas.anchorOf Sample.rect Sample.wheelUp)
                  Scenario.zoomedTwiceInOneBatch)
               (mkPoint 330 220)
      /\ scale Scenario.zoomedOnce == 1.1
      /\ scale Scenario.zoomedTwiceInOneBatch == 1.1
      /\ 300 < 330).
Proof.
  split.
  - repeat split; vm_compute; reflexivity.
  - repeat split; vm_compute; reflexivity.
Qed.

(** ** The note collection *)

Lemma updateNotes_length id0 u ns :
  List.length (App.updateNotes id0 u ns) = List.length ns.
Proof. unfold App.updateNotes. apply length_map. Qed.

Lemma updateNotes_unknown id0 u ns :
  ~ In id0 (map id ns) -> App.updateNotes id0 u ns = ns.
Proof.
  unfold App.updateNotes.
  induction ns as [|n ns IH]; intros Hnot; cbn [map] in *.
  - reflexivity.
  - destruct (String.eqb_spec (id n) id0) as [Heq | Hne].
    + exfalso. apply Hnot. left. exact Heq.
    + f_equal. apply IH. intros Hin. apply Hnot. right. exact Hin.
Qed.

Lemma removeNote_unknown id0 ns :
  ~ In id0 (map id ns) -> App.removeNote id0 ns = ns.
Proof.
  unfold App.removeNote.
  induction ns as [|n ns IH]; intros Hnot; cbn [map filter] in *.
  - reflexivity.
  - destruct (String.eqb_spec (id n) id0) as [Heq | Hne]; cbn [negb].
    + exfalso. apply Hnot. left. exact Heq.
    + f_equal. apply IH. intros Hin. apply Hnot. right. exact Hin.
Qed.

(** C7.  When no note of the collection has the given id, both the update
    and the removal return the collection as it was, element for element;
    both are total functions, so neither can fail. *)
Theorem unknown_id_leaves_collection (id0 : string) (u : PartialNote)
    (st : App.State) :
  ~ In id0 (map id (App.notes st)) ->
  App.notes (App.handleUpdateNote id0 u st) = App.notes st
  /\ App.notes (App.handleDeleteNote id0 st) = App.notes st.
Proof.
  intros Hnot. cbn [App.handleUpdateNote App.handleDeleteNote App.notes].
  split; [now apply updateNotes_unknown | now apply removeNote_unknown].
Qed.

Lemma unknown_id_leaves_collection_witness :
  App.notes (App.handleUpdateNote "nobody" Sample.shrink Sample.board)
  = [Sample.noteA; Sample.noteB]
  /\ App.notes (App.handleDeleteNote "nobody" Sample.board)
     = [Sample.noteA; Sample.noteB].
Proof.
  apply (unknown_id_leaves_collection "nobody" Sample.shrink Sample.board).
  cbn. intros [H | [H | H]]; [discriminate H | discriminate H | exact H].
Defined.

(** C8.  Deleting the selected note clears the selection in the same
    state transition; deleting any other note leaves the selection as it
    was. *)
Theorem delete_and_selection (id0 : string) (st : App.State) :
  (App.selectedNoteId st = Some id0 ->
   App.selectedNoteId (App.handleDeleteNote id0 st) = None)
  /\ (App.selectedNoteId st <> Some id0 ->
      App.selectedNoteId (App.handleDeleteNote id0 st)
      = App.selectedNoteId st).
Proof.
  cbn [App.handleDeleteNote App.selectedNoteId]. split.
  - intros Hsel. rewrite Hsel. cbn [App.isSelected].
    now rewrite String.eqb_refl.
  - intros Hsel. destruct (App.selectedNoteId st) as [s|]; cbn [App.isSelected].
    + destruct (String.eqb_spec s id0) as [Heq | Hne].
      * exfalso. apply Hsel. now rewrite Heq.
      * reflexivity.
    + reflexivity.
Qed.

Lemma delete_and_selection_witness :
  App.selectedNoteId (App.handleDeleteNote "a" Sample.board) = None
  /\ App.selectedNoteId (App.handleDeleteNote "b" Sample.board) = Some "a"%string.
Proof.
  split.
  - exact (proj1 (delete_and_selection "a" Sample.board) eq_refl).
  - apply (proj2 (delete_and_selection "b" Sample.board)).
    cbn. intros H. discriminate H.
Defined.

(** The keyboard shortcut goes through the same handler. *)
Lemma keyboard_delete_clears_selection (e : App.KeyboardEvent) st sel :
  App.key e = "Delete"%string -> App.inEditable e = false ->
  App.truthy (App.selectedNoteId st) = Some sel ->
  App.selectedNoteId (App.handleKeyDown e st) = None.
Proof.
  intros Hkey Hed Hsel. unfold App.handleKeyDown, App.escapeKey.
  rewrite Hkey, Hed, Hsel. cbn.
  unfold App.truthy in Hsel.
  destruct (App.selectedNoteId st) as [s|]; [|discriminate].
  destruct (String.eqb s ""); [discriminate|].
  injection Hsel as ->. cbn [App.isSelected].
  now rewrite String.eqb_refl.
Qed.

(** What an addition does to the state: it appends exactly one note at the
    end of the collection, 300 by 200, with empty content, the position
    asked for, the second clock reading as its creation time and the id
    ["note-" + clock + "-" + nine random digits], and it selects that id. *)
Lemma add_appends_and_selects (env : App.Env) (x0 y0 : Q)
    (noteColor : option string) (st : App.State) :
  let st' := App.handleAddNote env x0 y0 noteColor st in
  exists n : Note,
    App.notes st' = App.notes st ++ [n]
    /\ id n = ("note-" ++ App.decimal (App.now_id env) ++ "-"
               ++ substring 2 9 (App.random36 env))%string
    /\ x n = x0 /\ y n = y0
    /\ width n = 300 /\ height n = 200
    /\ content n = ""%string
    /\ createdAt n = inject_Z (App.now_created env)
    /\ App.selectedNoteId st' = Some (id n).
Proof.
  intros st'.
  exists (App.newNote env x0 y0 (App.pickColor noteColor (App.nextColorIndex st))).
  subst st'. cbn. repeat split; reflexivity.
Qed.

(** C10, on the failing input.  The board already holds a note whose id
    was generated at clock reading 1700000000000 with the random digits
    [k3j9x1q7z]; an addition that reads the same clock value and the same
    digits appends a second note under that very id, selects the id, and
    the id still denotes the older note.  The new note's id is not fresh:
    [generateId] never looks at the collection. *)
Lemma add_reuses_id_in_use :
  App.generateId Sample.env = id Scenario.earlier
  /\ map id (App.notes Scenario.taken) = [id Scenario.earlier]
  /\ map id (App.notes (App.handleAddNote Sample.env 10 20 None Scenario.taken))
     = [id Scenario.earlier; id Scenario.earlier]
  /\ App.selectedNoteId (App.handleAddNote Sample.env 10 20 None Scenario.taken)
     = Some (id Scenario.earlier)
  /\ findNote (id Scenario.earlier)
       (App.notes (App.handleAddNote Sample.env 10 20 None Scenario.taken))
     = Some Scenario.earlier.
Proof. repeat split; vm_compute; reflexivity. Qed.

(** The new id is new to the collection whenever [generateId] returns a
    string no note carries yet; the code does not check for a clash. *)
Lemma add_keeps_ids_distinct env x0 y0 noteColor st :
  NoDup (map id (App.notes st)) ->
  ~ In (App.generateId env) (map id (App.notes st)) ->
  NoDup (map id (App.notes (App.handleAddNote env x0 y0 noteColor st))).
Proof.
  intros Hnd Hfresh. cbn [App.handleAddNote App.notes].
  rewrite map_app. cbn [map App.newNote id].
  apply NoDup_app; repeat split.
  - exact Hnd.
  - constructor; [intros [] | constructor].
  - intros i Hi [Hj | []]. subst i. contradiction.
Qed.

Example generateId_sample :
  App.generateId Sample.env = "note-1700000000000-k3j9x1q7z"%string.
Proof. vm_compute. reflexivity. Qed.

(** ** Identity of a note under update *)

(** C6, as stated, fails: an update whose partial object carries [id] and
    [createdAt] overwrites both on the matching note. *)
Lemma update_overwrites_identity :
  map id (App.notes Sample.board) = ["a"; "b"]%string
  /\ map createdAt (App.notes Sample.board) = [1; 2]
  /\ map id (App.notes (App.handleUpdateNote "a" Sample.rename Sample.board))
     = ["z"; "b"]%string
  /\ map createdAt
       (App.notes (App.handleUpdateNote "a" Sample.rename Sample.board))
     = [99; 2].
Proof. repeat split; reflexivity. Qed.

Lemma spread_identity n u :
  identityPreserving u ->
  id (spread n u) = id n /\ createdAt (spread n u) = createdAt n.
Proof. intros [Hid Hc]. cbn [spread id createdAt]. now rewrite Hid, Hc. Qed.

(** C6, amended.  An update whose partial object has neither an [id] nor
    a [createdAt] key leaves the id and the creation time of every note of
    the collection as they were, in the same order. *)
Theorem update_keeps_identity (id0 : string) (u : PartialNote)
    (st : App.State) :
  identityPreserving u ->
  map id (App.notes (App.handleUpdateNote id0 u st)) = map id (App.notes st)
  /\ map createdAt (App.notes (App.handleUpdateNote id0 u st))
     = map createdAt (App.notes st).
Proof.
  intros Hu. cbn [App.handleUpdateNote App.notes]. unfold App.updateNotes.
  rewrite !map_map.
  split; apply map_ext; intros n;
    destruct (String.eqb (id n) id0); try reflexivity;
    now destruct (spread_identity n u Hu).
Qed.

Lemma update_keeps_identity_witness :
  map id (App.notes (App.handleUpdateNote "a" (Sample.moveTo 7 9) Sample.board))
  = ["a"; "b"]%string
  /\ map createdAt
       (App.notes (App.handleUpdateNote "a" (Sample.moveTo 7 9) Sample.board))
     = [1; 2].
Proof.
  exact (update_keeps_identity "a" (Sample.moveTo 7 9) Sample.board
           (conj eq_refl eq_refl)).
Defined.

(** Every command the components issue is well behaved: their updates
    carry a position, a content, or a clamped size, and nothing else. *)
Lemma issued_wellBehaved c : issued c -> wellBehaved c.
Proof.
  assert (Hone : forall c', wellBehaved c' -> In c [c'] -> wellBehaved c)
    by (intros c' Hc' [<- | []]; exact Hc').
  intros H. destruct H as
    [e cst c Hin | rect cst c Hin | rect e cst c Hin | n
    | props e st c Hin | props e st c Hin | s e | props html | props].
  - unfold Canvas.handleCanvasMouseDown in Hin.
    destruct (Canvas.startsPan e); cbn [snd] in Hin.
    + revert Hin. apply Hone. exact I.
    + destruct Hin.
  - unfold Canvas.handleAddNote in Hin.
    destruct rect; cbn [snd] in Hin.
    + revert Hin. apply Hone. exact I.
    + destruct Hin.
  - unfold Canvas.handleDoubleClick in Hin.
    destruct (onCanvas e); cbn [snd] in Hin.
    + revert Hin. apply Hone. exact I.
    + destruct Hin.
  - exact I.
  - unfold NoteComponent.handleMouseDown in Hin.
    destruct (NoteComponent.intercepted e); cbn [snd] in Hin.
    + destruct Hin.
    + revert Hin. apply Hone. exact I.
  - unfold NoteComponent.handleMouseMove in Hin.
    destruct (negb (NoteComponent.isDragging st)).
    + destruct Hin.
    + revert Hin. apply Hone. cbn. repeat split; intros ? Hq; discriminate Hq.
  - cbn. repeat split; try reflexivity.
    + intros w Hw. injection Hw as <-. apply Math_max_lower.
    + intros h Hh. injection Hh as <-. apply Math_max_lower.
  - cbn. repeat split; intros ? Hq; discriminate Hq.
  - exact I.
Qed.

(** ** Minimum size *)

(** C5, as stated, fails: the update handler stores whatever size the
    partial object carries, so a note of 300 by 200 can be set to 50 by 20. *)
Lemma update_can_shrink_below_minimum :
  map width (App.notes Sample.board) = [300; 300]
  /\ map height (App.notes Sample.board) = [200; 200]
  /\ map width (App.notes (App.handleUpdateNote "a" Sample.shrink Sample.board))
     = [50; 300]
  /\ map height (App.notes (App.handleUpdateNote "a" Sample.shrink Sample.board))
     = [20; 200]
  /\ 50 < 200 /\ 20 < 100.
Proof. repeat split; reflexivity. Qed.

Lemma spread_sizeOk n u : sizePreserving u -> sizeOk n -> sizeOk (spread n u).
Proof.
  intros [Hw Hh] [Hnw Hnh]. unfold sizeOk. cbn [spread width height].
  split.
  - destruct (p_width u) as [w|]; cbn [override]; [now apply Hw | exact Hnw].
  - destruct (p_height u) as [h|]; cbn [override]; [now apply Hh | exact Hnh].
Qed.

Lemma updateNotes_sizeOk id0 u ns :
  sizePreserving u -> Forall sizeOk ns -> Forall sizeOk (App.updateNotes id0 u ns).
Proof.
  intros Hu Hns. unfold App.updateNotes. induction Hns as [|n ns Hn _ IH]; cbn [map].
  - constructor.
  - constructor; [|exact IH].
    destruct (String.eqb (id n) id0); [now apply spread_sizeOk | exact Hn].
Qed.

Lemma removeNote_sizeOk id0 ns :
  Forall sizeOk ns -> Forall sizeOk (App.removeNote id0 ns).
Proof.
  intros Hns. unfold App.removeNote. rewrite Forall_forall in *.
  intros n Hin. apply filter_In in Hin. now apply Hns.
Qed.

Lemma newNote_sizeOk env x0 y0 c : sizeOk (App.newNote env x0 y0 c).
Proof. unfold sizeOk. cbn [App.newNote width height]. split; lra. Qed.

Lemma exec_sizeOk env c st :
  wellBehaved c ->
  Forall sizeOk (App.notes st) -> Forall sizeOk (App.notes (App.exec env c st)).
Proof.
  intros Hc Hst. destruct c as [x0 y0 col | i u | i | i]; cbn [App.exec].
  - cbn [App.handleAddNote App.notes]. apply Forall_app. split; [exact Hst|].
    constructor; [apply newNote_sizeOk | constructor].
  - cbn [App.handleUpdateNote App.notes]. destruct Hc as [_ Hu].
    now apply updateNotes_sizeOk.
  - cbn [App.handleDeleteNote App.notes]. now apply removeNote_sizeOk.
  - exact Hst.
Qed.

Lemma handleKeyDown_sizeOk e st :
  Forall sizeOk (App.notes st) -> Forall sizeOk (App.notes (App.handleKeyDown e st)).
Proof.
  intros Hst.
  assert (Hesc : forall s, Forall sizeOk (App.notes s) ->
                           Forall sizeOk (App.notes (App.escapeKey e s))).
  { intros s Hs. unfold App.escapeKey.
    destruct (String.eqb (App.key e) "Escape"); exact Hs. }
  unfold App.handleKeyDown.
  destruct (String.eqb (App.key e) "Delete" || String.eqb (App.key e) "Backspace");
    [|now apply Hesc].
  destruct (App.truthy (App.selectedNoteId st)) as [sel|]; [|now apply Hesc].
  destruct (App.inEditable e); [exact Hst|].
  apply Hesc. cbn [App.handleDeleteNote App.notes]. now apply removeNote_sizeOk.
Qed.

(** C5, amended.  In every state the application can reach from the empty
    board through its own handlers (adding a note, dragging, resizing with
    [max(200, startWidth + dx)] and [max(100, startHeight + dy)], editing,
    deleting, selecting, the keyboard shortcuts), every note is at least
    200 wide and 100 high. *)
Theorem reachable_notes_have_minimum_size (st : App.State) :
  reachable st -> Forall sizeOk (App.notes st).
Proof.
  induction 1 as [|env c st _ IH Hc | e st _ IH].
  - constructor.
  - apply exec_sizeOk; [now apply issued_wellBehaved | exact IH].
  - now apply handleKeyDown_sizeOk.
Qed.

Lemma reachable_notes_have_minimum_size_witness :
  Forall sizeOk (App.notes Sample.afterResize)
  /\ map width (App.notes Sample.afterResize) = [200]
  /\ map height (App.notes Sample.afterResize) = [100].
Proof.
  split; [|split; vm_compute; reflexivity].
  apply (reachable_notes_have_minimum_size Sample.afterResize).
  unfold Sample.afterResize, Sample.afterAdd.
  apply ReachCommand; [apply ReachCommand; [apply ReachInitial|]|].
  - apply (IssuedByDoubleClick Sample.rect Sample.doubleClick Canvas.initial).
    left. reflexivity.
  - apply IssuedByResize.
Defined.

(** ** Panning *)

Lemma handleMouseMove_panning e st :
  Canvas.isPanning st = true ->
  Canvas.handleMouseMove e st
  = {| Canvas.canvasState :=
         {| scale := scale (Canvas.canvasState st);
            offsetX := px (Canvas.canvasStartRef st)
                       + (clientX e - px (Canvas.panStartRef st));
            offsetY := py (Canvas.canvasStartRef st)
                       + (clientY e - py (Canvas.panStartRef st)) |};
       Canvas.isPanning := true;
       Canvas.nextColorIndex := Canvas.nextColorIndex st;
       Canvas.panStartRef := Canvas.panStartRef st;
       Canvas.canvasStartRef := Canvas.canvasStartRef st |}.
Proof.
  intros Hp. unfold Canvas.handleMouseMove, Canvas.setCanvasState.
  rewrite Hp. reflexivity.
Qed.

Lemma handleMouseMove_idle e st :
  Canvas.isPanning st = false -> Canvas.handleMouseMove e st = st.
Proof. intros Hp. unfold Canvas.handleMouseMove. now rewrite Hp. Qed.

(** Moves leave the session's anchors, the scale and the session itself
    as they were. *)
Lemma panMoves_keeps_session moves : forall st,
  Canvas.isPanning st = true ->
  let st' := Canvas.panMoves moves st in
  Canvas.isPanning st' = true
  /\ Canvas.panStartRef st' = Canvas.panStartRef st
  /\ Canvas.canvasStartRef st' = Canvas.canvasStartRef st
  /\ scale (Canvas.canvasState st') = scale (Canvas.canvasState st).
Proof.
  unfold Canvas.panMoves.
  induction moves as [|m moves IH]; intros st Hp; cbn [fold_left].
  - repeat split; assumption || reflexivity.
  - specialize (IH (Canvas.handleMouseMove m st)).
    rewrite (handleMouseMove_panning m st Hp) in *.
    apply IH. reflexivity.
Qed.

(** C9.  In a pan session (a press that passes the guard of
    [handleCanvasMouseDown], followed by any number of moves), every move
    leaves the offset at the offset the viewport had at the press plus the
    pointer's displacement from the press point, whatever moves came
    before it, and leaves the scale as it was. *)
Theorem pan_move_is_absolute (down : MouseEvent) (moves : list MouseEvent)
    (e : MouseEvent) (st : Canvas.State) :
  Canvas.startsPan down = true ->
  let started := fst (Canvas.handleCanvasMouseDown down st) in
  let v' := Canvas.canvasState (Canvas.panMoves (moves ++ [e]) started) in
  offsetX v' = offsetX (Canvas.canvasState st) + (clientX e - clientX down)
  /\ offsetY v' = offsetY (Canvas.canvasState st) + (clientY e - clientY down)
  /\ scale v' = scale (Canvas.canvasState st).
Proof.
  intros Hguard started v'. subst v'.
  assert (Hstart : Canvas.isPanning started = true
                   /\ Canvas.panStartRef started
                      = {| px := clientX down; py := clientY down |}
                   /\ Canvas.canvasStartRef started
                      = {| px := offsetX (Canvas.canvasState st);
                           py := offsetY (Canvas.canvasState st) |}
                   /\ Canvas.canvasState started = Canvas.canvasState st).
  { subst started. unfold Canvas.handleCanvasMouseDown. rewrite Hguard.
    repeat split. }
  destruct Hstart as (Hp & Hanchor & Hoffset & Hview).
  destruct (panMoves_keeps_session moves started Hp) as (Hp' & Ha' & Ho' & Hs').
  unfold Canvas.panMoves in *. rewrite fold_left_app. cbn [fold_left].
  rewrite (handleMouseMove_panning e _ Hp'). cbn [Canvas.canvasState scale offsetX offsetY].
  rewrite Ha', Ho', Hs', Hanchor, Hoffset, Hview. cbn [px py].
  repeat split.
Qed.

Lemma pan_move_is_absolute_witness :
  let st := Canvas.setCanvasState (fun _ => Sample.panned) Canvas.initial in
  let started :=
    fst (Canvas.handleCanvasMouseDown (Sample.press 400 300 CanvasBackground) st) in
  let v' :=
    Canvas.canvasState
      (Canvas.panMoves [Sample.press 410 290 CanvasBackground;
                        Sample.press 50 700 CanvasBackground;
                        Sample.press 430 280 CanvasBackground] started) in
  offsetX v' == 130 /\ offsetY v' == 30 /\ scale v' == 2.
Proof.
  cbv zeta.
  pose proof (pan_move_is_absolute
                (Sample.press 400 300 CanvasBackground)
                [Sample.press 410 290 CanvasBackground;
                 Sample.press 50 700 CanvasBackground]
                (Sample.press 430 280 CanvasBackground)
                (Canvas.setCanvasState (fun _ => Sample.panned) Canvas.initial)
                eq_refl) as (Hx & Hy & Hs).
  cbv zeta in Hx, Hy, Hs. cbn [app] in Hx, Hy, Hs.
  rewrite Hx, Hy, Hs. repeat split.
Defined.

(** ** Dragging a note *)

Lemma findNote_id id0 ns n : findNote id0 ns = Some n -> id n = id0.
Proof.
  induction ns as [|m ns IH]; cbn [findNote]; [discriminate|].
  destruct (String.eqb_spec (id m) id0) as [Heq | _]; [|exact IH].
  intros H. injection H as <-. exact Heq.
Qed.

Lemma findNote_updateNotes id0 u ns n :
  p_id u = None ->
  findNote id0 ns = Some n ->
  findNote id0 (App.updateNotes id0 u ns) = Some (spread n u).
Proof.
  intros Hu. unfold App.updateNotes.
  induction ns as [|m ns IH]; cbn [findNote map]; [discriminate|].
  destruct (String.eqb (id m) id0) eqn:Hm.
  - intros H. injection H as <-.
    cbn [spread id]. rewrite Hu. cbn [override]. now rewrite Hm.
  - intros H. rewrite Hm. now apply IH.
Qed.

(** One move of an active drag, seen from the collection. *)
Lemma drag_move_updates_note env props e st app n :
  NoteComponent.isDragging st = true ->
  findNote (id (NoteComponent.note props)) (App.notes app) = Some n ->
  findNote (id (NoteComponent.note props))
    (App.notes (App.execAll env (NoteComponent.handleMouseMove props e st) app))
  = Some {| id := id n;
            x := px (NoteComponent.noteStartRef st)
                 + (clientX e - px (NoteComponent.dragStartRef st))
                   / NoteComponent.canvasScale props;
            y := py (NoteComponent.noteStartRef st)
                 + (clientY e - py (NoteComponent.dragStartRef st))
                   / NoteComponent.canvasScale props;
            content := content n;
            width := width n;
            height := height n;
            color := color n;
            createdAt := createdAt n |}.
Proof.
  intros Hd Hfind. unfold NoteComponent.handleMouseMove. rewrite Hd.
  cbn [negb App.execAll fold_left App.exec App.handleUpdateNote App.notes].
  erewrite findNote_updateNotes; [|reflexivity|exact Hfind].
  reflexivity.
Qed.

(** C4.  In a drag session (a press on the note that is not intercepted,
    then moves), a move at pointer displacement (dx, dy) from the press,
    handled at a canvas scale s within the zoom bounds, puts the note at
    the position it had at the press plus (dx / s, dy / s), wherever
    earlier moves had left it, and changes nothing else of the note. *)
Theorem drag_move_is_absolute (env : App.Env)
    (atPress : NoteComponent.Props) (down : MouseEvent)
    (st0 : NoteComponent.State)
    (props : NoteComponent.Props) (e : MouseEvent)
    (app : App.State) (n : Note) :
  NoteComponent.intercepted down = false ->
  Canvas.inBounds (NoteComponent.canvasScale props) ->
  findNote (id (NoteComponent.note props)) (App.notes app) = Some n ->
  let st := fst (NoteComponent.handleMouseDown atPress down st0) in
  let s := NoteComponent.canvasScale props in
  let app' := App.execAll env (NoteComponent.handleMouseMove props e st) app in
  exists n',
    findNote (id (NoteComponent.note props)) (App.notes app') = Some n'
    /\ x n' = x (NoteComponent.note atPress) + (clientX e - clientX down) / s
    /\ y n' = y (NoteComponent.note atPress) + (clientY e - clientY down) / s
    /\ id n' = id n /\ content n' = content n
    /\ width n' = width n /\ height n' = height n
    /\ color n' = color n /\ createdAt n' = createdAt n.
Proof.
  intros Hfree _ Hfind st s app'.
  assert (Hd : NoteComponent.isDragging st = true)
    by (subst st; unfold NoteComponent.handleMouseDown; now rewrite Hfree).
  eexists. split.
  - subst app'. apply (drag_move_updates_note env props e st app n Hd Hfind).
  - subst st s. unfold NoteComponent.handleMouseDown. rewrite Hfree.
    cbn. repeat split.
Qed.

(** At scale 2, a pointer displacement of (40, 20) moves the note by
    (20, 10) in world units. *)
Lemma drag_move_is_absolute_witness :
  exists n',
    findNote "a"
      (App.notes
         (App.execAll Sample.env
            (NoteComponent.handleMouseMove Sample.propsA
               (Sample.press 640 420 NoteBody)
               (fst (NoteComponent.handleMouseDown Sample.propsA
                       (Sample.press 600 400 NoteBody)
                       NoteComponent.initial)))
            Sample.board))
    = Some n'
    /\ x n' == x Sample.noteA + 20
    /\ y n' == y Sample.noteA + 10.
Proof.
  assert (Hs : Canvas.inBounds (NoteComponent.canvasScale Sample.propsA)).
  { unfold Canvas.inBounds, Canvas.MIN_SCALE, Canvas.MAX_SCALE.
    cbn [Sample.propsA NoteComponent.canvasScale]. split; lra. }
  destruct (drag_move_is_absolute Sample.env Sample.propsA
              (Sample.press 600 400 NoteBody) NoteComponent.initial
              Sample.propsA (Sample.press 640 420 NoteBody)
              Sample.board Sample.noteA eq_refl Hs eq_refl)
    as (n' & Hfind & Hx & Hy & _).
  exists n'. split; [exact Hfind|].
  rewrite Hx, Hy. split; vm_compute; reflexivity.
Defined.

(** * Further properties *)

(** ** The pan gesture and what is drawn *)

Lemma pan_session_view down moves e st :
  Canvas.startsPan down = true ->
  Canvas.canvasState
    (Canvas.panMoves (moves ++ [e]) (fst (Canvas.handleCanvasMouseDown down st)))
  = {| scale := scale (Canvas.canvasState st);
       offsetX := offsetX (Canvas.canvasState st) + (clientX e - clientX down);
       offsetY := offsetY (Canvas.canvasState st) + (clientY e - clientY down) |}.
Proof.
  intros Hguard.
  set (started := fst (Canvas.handleCanvasMouseDown down st)).
  assert (Hp : Canvas.isPanning started = true)
    by (subst started; unfold Canvas.handleCanvasMouseDown; now rewrite Hguard).
  assert (Hrefs : Canvas.panStartRef started
                  = {| px := clientX down; py := clientY down |}
                  /\ Canvas.canvasStartRef started
                     = {| px := offsetX (Canvas.canvasState st);
                          py := offsetY (Canvas.canvasState st) |}
                  /\ Canvas.canvasState started = Canvas.canvasState st)
    by (subst started; unfold Canvas.handleCanvasMouseDown;
        rewrite Hguard; repeat split).
  destruct Hrefs as (Hanchor & Hoffset & Hview).
  destruct (panMoves_keeps_session moves started Hp) as (Hp' & Ha' & Ho' & Hs').
  unfold Canvas.panMoves in *. rewrite fold_left_app. cbn [fold_left].
  rewrite (handleMouseMove_panning e _ Hp'). cbn [Canvas.canvasState].
  now rewrite Ha', Ho', Hs', Hanchor, Hoffset, Hview.
Qed.

(** X1.  In exact arithmetic, during a pan every world point is drawn
    displaced by the pointer's displacement from the press point: the
    notes follow the pointer and keep their world coordinates. *)
Theorem pan_displaces_every_drawn_point (down : MouseEvent)
    (moves : list MouseEvent) (e : MouseEvent) (st : Canvas.State)
    (w : Point) :
  Canvas.startsPan down = true ->
  let v := Canvas.canvasState st in
  let v' := Canvas.canvasState
              (Canvas.panMoves (moves ++ [e])
                 (fst (Canvas.handleCanvasMouseDown down st))) in
  pt_eq (Canvas.toScreen w v')
        {| px := px (Canvas.toScreen w v) + (clientX e - clientX down);
           py := py (Canvas.toScreen w v) + (clientY e - clientY down) |}.
Proof.
  intros Hguard v v'. subst v v'. rewrite (pan_session_view _ _ _ _ Hguard).
  unfold pt_eq, Canvas.toScreen. cbn [px py scale offsetX offsetY].
  split; ring.
Qed.

Lemma pan_displaces_every_drawn_point_witness :
  pt_eq
    (Canvas.toScreen (mkPoint 0 0)
       (Canvas.canvasState
          (Canvas.panMoves
             ([Sample.press 10 10 CanvasBackground]
              ++ [Sample.press 500 350 CanvasBackground])
             (fst (Canvas.handleCanvasMouseDown
                     (Sample.press 400 300 CanvasBackground)
                     Canvas.initial)))))
    (mkPoint 100 50).
Proof.
  destruct (pan_displaces_every_drawn_point
              (Sample.press 400 300 CanvasBackground)
              [Sample.press 10 10 CanvasBackground]
              (Sample.press 500 350 CanvasBackground)
              Canvas.initial (mkPoint 0 0) eq_refl) as [Hx Hy].
  split; [rewrite Hx | rewrite Hy]; vm_compute; reflexivity.
Defined.

(** X2.  During a pan at a scale within the zoom bounds, the world point
    that was under the pointer at the press is the world point under the
    pointer at every move. *)
Theorem pan_keeps_grabbed_point (rect : DOMRect) (down : MouseEvent)
    (moves : list MouseEvent) (e : MouseEvent) (st : Canvas.State) :
  Canvas.startsPan down = true ->
  Canvas.inBounds (scale (Canvas.canvasState st)) ->
  let v' := Canvas.canvasState
              (Canvas.panMoves (moves ++ [e])
                 (fst (Canvas.handleCanvasMouseDown down st))) in
  pt_eq (Canvas.toWorld (Canvas.anchorOf rect e) v')
        (Canvas.toWorld (Canvas.anchorOf rect down) (Canvas.canvasState st)).
Proof.
  intros Hguard Hs v'. subst v'. rewrite (pan_session_view _ _ _ _ Hguard).
  apply inBounds_nonzero in Hs.
  unfold pt_eq, Canvas.toWorld, Canvas.anchorOf.
  cbn [px py scale offsetX offsetY].
  split; field; exact Hs.
Qed.

Lemma pan_keeps_grabbed_point_witness :
  pt_eq
    (Canvas.toWorld
       (Canvas.anchorOf Sample.rect (Sample.press 500 350 CanvasBackground))
       (Canvas.canvasState
          (Canvas.panMoves
             ([] ++ [Sample.press 500 350 CanvasBackground])
             (fst (Canvas.handleCanvasMouseDown
                     (Sample.press 400 300 CanvasBackground)
                     (Scenario.canvasAt Sample.panned))))))
    (mkPoint 70 97).
Proof.
  assert (Hs : Canvas.inBounds
                 (scale (Canvas.canvasState (Scenario.canvasAt Sample.panned)))).
  { unfold Canvas.inBounds, Canvas.MIN_SCALE, Canvas.MAX_SCALE.
    cbn. split; lra. }
  destruct (pan_keeps_grabbed_point Sample.rect
              (Sample.press 400 300 CanvasBackground) []
              (Sample.press 500 350 CanvasBackground)
              (Scenario.canvasAt Sample.panned) eq_refl Hs) as [Hx Hy].
  split; [rewrite Hx | rewrite Hy]; vm_compute; reflexivity.
Defined.

Lemma panMoves_idle moves : forall st,
  Canvas.isPanning st = false -> Canvas.panMoves moves st = st.
Proof.
  unfold Canvas.panMoves.
  induction moves as [|m moves IH]; intros st Hidle; cbn [fold_left].
  - reflexivity.
  - rewrite (handleMouseMove_idle m st Hidle). now apply IH.
Qed.

(** X3.  Releasing the button ends the pan: the viewport stays where the
    last move left it, and no later pointer move changes anything. *)
Theorem release_ends_pan (moves : list MouseEvent) (st : Canvas.State) :
  Canvas.canvasState (Canvas.handleMouseUp st) = Canvas.canvasState st
  /\ Canvas.panMoves moves (Canvas.handleMouseUp st) = Canvas.handleMouseUp st.
Proof.
  split; [reflexivity|]. apply panMoves_idle. reflexivity.
Qed.

(** ** The zoom buttons *)

(** Case analysis on every [Qmax] and [Qmin], in the goal and in the
    hypotheses. *)
Ltac minmax_cases :=
  unfold Math_max, Math_min, Canvas.inBounds, Canvas.MIN_SCALE,
    Canvas.MAX_SCALE, Canvas.ZOOM_STEP in *;
  repeat match goal with
  | |- context [Qmax ?a ?b] =>
      let H := fresh "Hmax" in
      destruct (Q.max_spec a b) as [[? H] | [? H]]; rewrite H in *; clear H
  | |- context [Qmin ?a ?b] =>
      let H := fresh "Hmin" in
      destruct (Q.min_spec a b) as [[? H] | [? H]]; rewrite H in *; clear H
  | _ : context [Qmax ?a ?b] |- _ =>
      let H := fresh "Hmax" in
      destruct (Q.max_spec a b) as [[? H] | [? H]]; rewrite H in *; clear H
  | _ : context [Qmin ?a ?b] |- _ =>
      let H := fresh "Hmin" in
      destruct (Q.min_spec a b) as [[? H] | [? H]]; rewrite H in *; clear H
  end.

(** X4.  Within the zoom bounds, the zoom-in button never lowers the scale
    and raises it by at most one step; the zoom-out button never raises it
    and lowers it by at most one step. *)
Theorem zoom_buttons_are_monotone (v : CanvasState) :
  Canvas.inBounds (scale v) ->
  (scale v <= scale (Canvas.zoomIn v)
   /\ scale (Canvas.zoomIn v) <= scale v + Canvas.ZOOM_STEP)
  /\ (scale v - Canvas.ZOOM_STEP <= scale (Canvas.zoomOut v)
      /\ scale (Canvas.zoomOut v) <= scale v).
Proof.
  intros [Hlo Hhi]. cbn [Canvas.zoomIn Canvas.zoomOut scale].
  repeat split; minmax; lra.
Qed.

Lemma zoom_buttons_are_monotone_witness :
  (scale Sample.zoomedIn <= scale (Canvas.zoomIn Sample.zoomedIn)
   /\ scale (Canvas.zoomIn Sample.zoomedIn)
      <= scale Sample.zoomedIn + Canvas.ZOOM_STEP)
  /\ (scale Sample.zoomedIn - Canvas.ZOOM_STEP
      <= scale (Canvas.zoomOut Sample.zoomedIn)
      /\ scale (Canvas.zoomOut Sample.zoomedIn) <= scale Sample.zoomedIn).
Proof.
  apply (zoom_buttons_are_monotone Sample.zoomedIn).
  unfold Canvas.inBounds, Canvas.MIN_SCALE, Canvas.MAX_SCALE.
  cbn [Sample.zoomedIn scale]. split; lra.
Defined.

(** X5.  Away from the bounds the two buttons undo each other: zoom-in
    then zoom-out gives the viewport back when the scale was at most
    [MAX_SCALE - ZOOM_STEP], and zoom-out then zoom-in when it was at least
    [MIN_SCALE + ZOOM_STEP]. *)
Theorem zoom_buttons_undo_each_other (v : CanvasState) :
  Canvas.inBounds (scale v) ->
  (scale v + Canvas.ZOOM_STEP <= Canvas.MAX_SCALE ->
   viewEq (Canvas.zoomOut (Canvas.zoomIn v)) v)
  /\ (Canvas.MIN_SCALE + Canvas.ZOOM_STEP <= scale v ->
      viewEq (Canvas.zoomIn (Canvas.zoomOut v)) v).
Proof.
  intros [Hlo Hhi]. unfold viewEq.
  cbn [Canvas.zoomIn Canvas.zoomOut scale offsetX offsetY].
  split; intros Hroom; (split; [|split; reflexivity]); minmax_cases; lra.
Qed.

Lemma zoom_buttons_undo_each_other_witness :
  viewEq (Canvas.zoomOut (Canvas.zoomIn Sample.panned)) Sample.panned
  /\ viewEq (Canvas.zoomIn (Canvas.zoomOut Sample.panned)) Sample.panned.
Proof.
  assert (H : Canvas.inBounds (scale Sample.panned)).
  { unfold Canvas.inBounds, Canvas.MIN_SCALE, Canvas.MAX_SCALE.
    cbn [Sample.panned scale]. split; lra. }
  destruct (zoom_buttons_undo_each_other Sample.panned H) as [Hio Hoi].
  split; [apply Hio | apply Hoi];
    unfold Canvas.MIN_SCALE, Canvas.MAX_SCALE, Canvas.ZOOM_STEP;
    cbn [Sample.panned scale]; lra.
Defined.

(** ** The zoom label *)

Lemma Math_round_bounds (q : Q) (lo hi : Z) :
  inject_Z lo <= q -> q <= inject_Z hi ->
  (lo <= Render.Math_round q <= hi)%Z.
Proof.
  intros Hlo Hhi. unfold Render.Math_round. split.
  - rewrite <- (Qfloor_Z lo). apply Qfloor_resp_le. lra.
  - assert (H : (Qfloor (q + (1 # 2)) <= Qfloor (inject_Z hi + (1 # 2)))%Z)
      by (apply Qfloor_resp_le; lra).
    pose proof (Qfloor_le (inject_Z hi + (1 # 2))) as Hfl.
    assert (Hz : inject_Z (Qfloor (inject_Z hi + (1 # 2))) < inject_Z (hi + 1)).
    { rewrite inject_Z_plus. change (inject_Z 1) with 1. lra. }
    rewrite <- Zlt_Qlt in Hz. lia.
Qed.

(** X6.  Whatever zoom gestures were made since the canvas was mounted,
    the zoom label shows a whole percentage between 25 and 300. *)
Theorem zoom_label_range (ops : list Canvas.ZoomOp) :
  (25 <= Render.zoomPercent
           (Canvas.zoomSequence ops (Canvas.canvasState Canvas.initial))
   <= 300)%Z.
Proof.
  destruct (zoomSequence_inBounds ops (Canvas.canvasState Canvas.initial)
              one_inBounds) as [Hlo Hhi].
  unfold Canvas.MIN_SCALE, Canvas.MAX_SCALE in *.
  unfold Render.zoomPercent. apply Math_round_bounds.
  - change (inject_Z 25) with 25. lra.
  - change (inject_Z 300) with 300. lra.
Qed.

(** ** Wheel zoom, composed *)


Lemma clamp_above (s : Q) :
  Canvas.MAX_SCALE <= s ->
  Math_max Canvas.MIN_SCALE (Math_min Canvas.MAX_SCALE s) == Canvas.MAX_SCALE.
Proof. intros Hhi. minmax_cases; lra. Qed.

Lemma clamp_below (s : Q) :
  s <= Canvas.MIN_SCALE ->
  Math_max Canvas.MIN_SCALE (Math_min Canvas.MAX_SCALE s) == Canvas.MIN_SCALE.
Proof. intros Hlo. minmax_cases; lra. Qed.

(** The offset formula with a ratio of one. *)
Lemma anchored_offset_same_scale (a o s s' : Q) :
  ~ s == 0 -> s' == s -> a - (a - o) * (s' / s) == o.
Proof. intros Hs Heq. rewrite Heq. field. exact Hs. Qed.



(** X8.  In exact arithmetic, and for a wheel event handled by the
    callback of the render that shows the viewport it updates, the wheel
    does nothing at a zoom bound: a zoom-in wheel event at [MAX_SCALE], or
    a zoom-out wheel event at [MIN_SCALE], leaves scale and offsets as
    they were, wherever the pointer is. *)
Theorem wheel_at_bound_keeps_viewport (v : CanvasState) (rect : DOMRect)
    (e : WheelEvent) :
  ctrlKey e || metaKey e = true ->
  (scale v == Canvas.MAX_SCALE /\ Canvas.wheelDelta e = Canvas.ZOOM_STEP)
  \/ (scale v == Canvas.MIN_SCALE /\ Canvas.wheelDelta e = - Canvas.ZOOM_STEP) ->
  viewEq (Canvas.handleWheel v (Some rect) e v) v.
Proof.
  intros Hmod Hbound. unfold Canvas.handleWheel. rewrite Hmod.
  assert (Hs : Math_max Canvas.MIN_SCALE
                 (Math_min Canvas.MAX_SCALE (scale v + Canvas.wheelDelta e))
               == scale v
               /\ ~ scale v == 0).
  { destruct Hbound as [[Hat Hd] | [Hat Hd]]; rewrite Hd.
    - split.
      + rewrite clamp_above; [now symmetry|].
        rewrite Hat. unfold Canvas.MAX_SCALE, Canvas.ZOOM_STEP. lra.
      + rewrite Hat. unfold Canvas.MAX_SCALE. lra.
    - split.
      + rewrite clamp_below; [now symmetry|].
        rewrite Hat. unfold Canvas.MIN_SCALE, Canvas.ZOOM_STEP. lra.
      + rewrite Hat. unfold Canvas.MIN_SCALE. lra. }
  destruct Hs as [Hs Hnz].
  unfold viewEq. cbn [scale offsetX offsetY].
  split; [exact Hs | split]; now apply anchored_offset_same_scale.
Qed.

Lemma wheel_at_bound_keeps_viewport_witness :
  viewEq (Canvas.handleWheel Sample.zoomedIn (Some Sample.rect)
            (Scenario.wheelAt 460 256 (-100)) Sample.zoomedIn)
         Sample.zoomedIn
  /\ viewEq (Canvas.handleWheel Scenario.zoomedOut (Some Sample.rect)
               (Scenario.wheelAt 900 600 100) Scenario.zoomedOut)
            Scenario.zoomedOut.
Proof.
  split.
  - apply (wheel_at_bound_keeps_viewport Sample.zoomedIn Sample.rect
             (Scenario.wheelAt 460 256 (-100)) eq_refl).
    left. split; reflexivity.
  - apply (wheel_at_bound_keeps_viewport Scenario.zoomedOut Sample.rect
             (Scenario.wheelAt 900 600 100) eq_refl).
    right. split; reflexivity.
Defined.

(** ** Where a new note is placed *)

(** X9.  The toolbar button appends a note and selects it; in exact
    arithmetic, and for a scale within the zoom bounds, the centre of the
    note (half its width and height from its corner) is drawn at the
    centre of the canvas element. *)
Theorem add_button_centres_note (env : App.Env) (rect : DOMRect)
    (cst : Canvas.State) (app : App.State) :
  Canvas.inBounds (scale (Canvas.canvasState cst)) ->
  let app' :=
    App.execAll env (snd (Canvas.handleAddNote (Some rect) cst)) app in
  exists n : Note,
    App.notes app' = App.notes app ++ [n]
    /\ App.selectedNoteId app' = Some (id n)
    /\ pt_eq (Canvas.toScreen
                {| px := x n + width n / 2; py := y n + height n / 2 |}
                (Canvas.canvasState cst))
             {| px := rectWidth rect / 2; py := rectHeight rect / 2 |}.
Proof.
  intros Hs app'. apply inBounds_nonzero in Hs. subst app'.
  cbn [Canvas.handleAddNote snd App.execAll fold_left App.exec
       App.handleAddNote App.notes App.selectedNoteId].
  eexists. split; [reflexivity|]. split; [reflexivity|].
  unfold pt_eq, Canvas.toScreen.
  cbn [App.newNote x y width height px py].
  split; field; exact Hs.
Qed.

Lemma add_button_centres_note_witness :
  exists n : Note,
    App.notes
      (App.execAll Sample.env
         (snd (Canvas.handleAddNote (Some Sample.rect)
                 (Scenario.canvasAt Sample.panned)))
         Sample.board)
    = App.notes Sample.board ++ [n]
    /\ x n == 120 /\ y n == 55.
Proof.
  assert (Hs : Canvas.inBounds
                 (scale (Canvas.canvasState (Scenario.canvasAt Sample.panned)))).
  { unfold Canvas.inBounds, Canvas.MIN_SCALE, Canvas.MAX_SCALE.
    cbn. split; lra. }
  destruct (add_button_centres_note Sample.env Sample.rect
              (Scenario.canvasAt Sample.panned) Sample.board Hs)
    as (n & Hnotes & _ & _).
  exists n. split; [exact Hnotes|].
  apply app_inj_tail in Hnotes. destruct Hnotes as [_ <-].
  split; vm_compute; reflexivity.
Defined.

(** X10.  A double click on the empty canvas appends a 300 by 200 note
    and selects it; in exact arithmetic, and for a scale within the zoom
    bounds, the point 150 to the right of and 50 below the note's corner
    is drawn where the click was, which is inside the note. *)
Theorem double_click_places_note_under_pointer (env : App.Env)
    (rect : DOMRect) (e : MouseEvent) (cst : Canvas.State)
    (app : App.State) :
  onCanvas e = true ->
  Canvas.inBounds (scale (Canvas.canvasState cst)) ->
  let app' :=
    App.execAll env (snd (Canvas.handleDoubleClick rect e cst)) app in
  exists n : Note,
    App.notes app' = App.notes app ++ [n]
    /\ App.selectedNoteId app' = Some (id n)
    /\ width n = 300 /\ height n = 200
    /\ pt_eq (Canvas.toScreen {| px := x n + 150; py := y n + 50 |}
                (Canvas.canvasState cst))
             (Canvas.anchorOf rect e).
Proof.
  intros Hon Hs app'. apply inBounds_nonzero in Hs. subst app'.
  unfold Canvas.handleDoubleClick. rewrite Hon.
  cbn [snd App.execAll fold_left App.exec
       App.handleAddNote App.notes App.selectedNoteId].
  eexists. split; [reflexivity|]. split; [reflexivity|].
  split; [reflexivity|]. split; [reflexivity|].
  unfold pt_eq, Canvas.toScreen, Canvas.anchorOf.
  cbn [App.newNote x y px py].
  split; field; exact Hs.
Qed.

Lemma double_click_places_note_under_pointer_witness :
  exists n : Note,
    App.notes
      (App.execAll Sample.env
         (snd (Canvas.handleDoubleClick Sample.rect Sample.doubleClick
                 (Scenario.canvasAt Sample.panned)))
         Sample.board)
    = App.notes Sample.board ++ [n]
    /\ x n == -50 /\ y n == 25.
Proof.
  assert (Hs : Canvas.inBounds
                 (scale (Canvas.canvasState (Scenario.canvasAt Sample.panned)))).
  { unfold Canvas.inBounds, Canvas.MIN_SCALE, Canvas.MAX_SCALE.
    cbn. split; lra. }
  destruct (double_click_places_note_under_pointer Sample.env Sample.rect
              Sample.doubleClick (Scenario.canvasAt Sample.panned)
              Sample.board eq_refl Hs)
    as (n & Hnotes & _).
  exists n. split; [exact Hnotes|].
  apply app_inj_tail in Hnotes. destruct Hnotes as [_ <-].
  split; vm_compute; reflexivity.
Defined.

(** ** What the components ask for *)

(** Inversion of [issued], call site by call site. *)
Lemma issued_inversion (c : Command) :
  issued c ->
  (exists i, c = OnSelectNote i)
  \/ (exists x0 y0 cst, c = OnAddNote x0 y0 (Some (Canvas.nextColor cst)))
  \/ (exists i nx ny, c = OnUpdateNote i (positionUpdate nx ny))
  \/ (exists i w h,
        c = OnUpdateNote i (sizeUpdate (Math_max 200 w) (Math_max 100 h)))
  \/ (exists i html, c = OnUpdateNote i (contentUpdate html))
  \/ (exists i, c = OnDeleteNote i).
Proof.
  intros H. destruct H as
    [e cst c Hin | rect cst c Hin | rect e cst c Hin | n
    | props e st c Hin | props e st c Hin | s e | props html | props].
  - unfold Canvas.handleCanvasMouseDown in Hin.
    destruct (Canvas.startsPan e); cbn [snd] in Hin.
    + destruct Hin as [<- | []]. left. now exists None.
    + destruct Hin.
  - unfold Canvas.handleAddNote in Hin.
    destruct rect; cbn [snd] in Hin.
    + destruct Hin as [<- | []]. right; left. now eexists _, _, cst.
    + destruct Hin.
  - unfold Canvas.handleDoubleClick in Hin.
    destruct (onCanvas e); cbn [snd] in Hin.
    + destruct Hin as [<- | []]. right; left. now eexists _, _, cst.
    + destruct Hin.
  - left. now eexists.
  - unfold NoteComponent.handleMouseDown in Hin.
    destruct (NoteComponent.intercepted e); cbn [snd] in Hin.
    + destruct Hin.
    + destruct Hin as [<- | []]. left. now eexists.
  - unfold NoteComponent.handleMouseMove in Hin.
    destruct (negb (NoteComponent.isDragging st)).
    + destruct Hin.
    + destruct Hin as [<- | []]. right; right; left. now eexists _, _, _.
  - right; right; right; left. now eexists _, _, _.
  - right; right; right; right; left. now eexists _, _.
  - right; right; right; right; right. now eexists.
Qed.

(** X11.  The commands that reach [App] from the canvas and the notes are
    of six kinds only: a selection, an addition with a colour of the
    canvas palette, an update of the position alone, an update of the size
    alone with both dimensions clamped from below, an update of the content
    alone, a deletion.  In particular no update names an id, a creation
    time or a colour. *)
Theorem issued_command_shapes (c : Command) :
  issued c ->
  (exists i, c = OnSelectNote i)
  \/ (exists x0 y0 cst, c = OnAddNote x0 y0 (Some (Canvas.nextColor cst)))
  \/ (exists i nx ny, c = OnUpdateNote i (positionUpdate nx ny))
  \/ (exists i w h,
        c = OnUpdateNote i (sizeUpdate (Math_max 200 w) (Math_max 100 h)))
  \/ (exists i html, c = OnUpdateNote i (contentUpdate html))
  \/ (exists i, c = OnDeleteNote i).
Proof. exact (issued_inversion c). Qed.

Lemma issued_command_shapes_witness :
  (exists i, Sample.resizeCmd = OnSelectNote i)
  \/ (exists x0 y0 cst,
        Sample.resizeCmd = OnAddNote x0 y0 (Some (Canvas.nextColor cst)))
  \/ (exists i nx ny, Sample.resizeCmd = OnUpdateNote i (positionUpdate nx ny))
  \/ (exists i w h,
        Sample.resizeCmd
        = OnUpdateNote i (sizeUpdate (Math_max 200 w) (Math_max 100 h)))
  \/ (exists i html, Sample.resizeCmd = OnUpdateNote i (contentUpdate html))
  \/ (exists i, Sample.resizeCmd = OnDeleteNote i).
Proof.
  apply (issued_command_shapes Sample.resizeCmd).
  unfold Sample.resizeCmd. apply IssuedByResize.
Defined.

(** ** Colours *)

Lemma nextColor_in_palette cst :
  In (Canvas.nextColor cst) Canvas.NOTE_COLORS.
Proof.
  unfold Canvas.nextColor. apply nth_In.
  apply Nat.mod_upper_bound. discriminate.
Qed.

Lemma pickColor_palette c i :
  In c Canvas.NOTE_COLORS -> App.pickColor (Some c) i = c.
Proof.
  intros Hin. cbn in Hin.
  repeat (destruct Hin as [<- | Hin]; [reflexivity|]). destruct Hin.
Qed.

Lemma spread_color n u : p_color u = None -> color (spread n u) = color n.
Proof. intros H. cbn [spread color]. now rewrite H. Qed.

Lemma updateNotes_inPalette i u ns :
  p_color u = None ->
  Forall inPalette ns -> Forall inPalette (App.updateNotes i u ns).
Proof.
  intros Hu Hns. unfold App.updateNotes.
  induction Hns as [|n ns Hn _ IH]; cbn [map]; constructor; [|exact IH].
  destruct (String.eqb (id n) i); [|exact Hn].
  unfold inPalette. now rewrite spread_color.
Qed.

Lemma removeNote_Forall (P : Note -> Prop) i ns :
  Forall P ns -> Forall P (App.removeNote i ns).
Proof.
  intros Hns. unfold App.removeNote. rewrite Forall_forall in *.
  intros n Hin. apply filter_In in Hin. now apply Hns.
Qed.

(** What a key press can do to the collection: nothing, or remove the
    notes of one id. *)
Lemma handleKeyDown_notes e st :
  App.notes (App.handleKeyDown e st) = App.notes st
  \/ exists sel, App.notes (App.handleKeyDown e st)
                 = App.removeNote sel (App.notes st).
Proof.
  assert (Hesc : forall s, App.notes (App.escapeKey e s) = App.notes s).
  { intros s. unfold App.escapeKey.
    now destruct (String.eqb (App.key e) "Escape"). }
  unfold App.handleKeyDown.
  destruct (String.eqb (App.key e) "Delete" || String.eqb (App.key e) "Backspace");
    [|left; apply Hesc].
  destruct (App.truthy (App.selectedNoteId st)) as [sel|]; [|left; apply Hesc].
  destruct (App.inEditable e); [now left|].
  right. exists sel. now rewrite Hesc.
Qed.

(** X12.  Every note the application can hold has a colour of the canvas
    palette: additions take their colour from it and no update changes a
    colour, so the note component always finds its own theme. *)
Theorem reachable_notes_are_in_palette (st : App.State) :
  reachable st -> Forall inPalette (App.notes st).
Proof.
  induction 1 as [|env c st _ IH Hc | e st _ IH].
  - constructor.
  - destruct (issued_inversion c Hc)
      as [[i ->] | [(x0 & y0 & cst & ->) | [(i & nx & ny & ->)
         | [(i & w & h & ->) | [(i & html & ->) | [i ->]]]]]];
      cbn [App.exec App.handleAddNote App.handleUpdateNote
           App.handleDeleteNote App.handleSelectNote App.notes].
    + exact IH.
    + apply Forall_app. split; [exact IH|]. constructor; [|constructor].
      unfold inPalette. cbn [App.newNote color].
      rewrite pickColor_palette; apply nextColor_in_palette.
    + now apply updateNotes_inPalette.
    + now apply updateNotes_inPalette.
    + now apply updateNotes_inPalette.
    + now apply removeNote_Forall.
  - destruct (handleKeyDown_notes e st) as [-> | [sel ->]];
      [exact IH | now apply removeNote_Forall].
Qed.

Lemma afterResize_reachable : reachable Sample.afterResize.
Proof.
  unfold Sample.afterResize, Sample.afterAdd.
  apply ReachCommand; [apply ReachCommand; [apply ReachInitial|]|].
  - apply (IssuedByDoubleClick Sample.rect Sample.doubleClick Canvas.initial).
    left. reflexivity.
  - apply IssuedByResize.
Qed.

Lemma reachable_notes_are_in_palette_witness :
  Forall inPalette (App.notes Sample.afterResize)
  /\ map color (App.notes Sample.afterResize) = ["navy"%string].
Proof.
  split; [|vm_compute; reflexivity].
  exact (reachable_notes_are_in_palette Sample.afterResize afterResize_reachable).
Defined.

(** ** Looking notes up after a change *)

(** X13.  After a deletion no note answers to the deleted id, and every
    other id still denotes the note it denoted before. *)
Theorem lookup_after_delete (i j : string) (ns : list Note) :
  findNote j (App.removeNote i ns)
  = if String.eqb j i then None else findNote j ns.
Proof.
  unfold App.removeNote.
  induction ns as [|n ns IH]; cbn [filter findNote].
  - now destruct (String.eqb j i).
  - destruct (String.eqb_spec (id n) i) as [Hni | Hni]; cbn [negb findNote].
    + rewrite IH. destruct (String.eqb_spec j i) as [Hji | Hji]; [reflexivity|].
      destruct (String.eqb_spec (id n) j) as [Hnj | _]; [|reflexivity].
      exfalso. apply Hji. now rewrite <- Hnj.
    + destruct (String.eqb_spec (id n) j) as [Hnj | _].
      * destruct (String.eqb_spec j i) as [Hji | _]; [|reflexivity].
        exfalso. apply Hni. now rewrite Hnj.
      * exact IH.
Qed.

(** X14.  Deleting is idempotent and the order of two deletions does not
    matter. *)
Theorem delete_idempotent_and_commutes (i j : string) (ns : list Note) :
  App.removeNote i (App.removeNote i ns) = App.removeNote i ns
  /\ App.removeNote i (App.removeNote j ns)
     = App.removeNote j (App.removeNote i ns).
Proof.
  unfold App.removeNote. split.
  - induction ns as [|n ns IH]; cbn [filter]; [reflexivity|].
    destruct (negb (String.eqb (id n) i)) eqn:Hn; cbn [filter].
    + rewrite Hn. now f_equal.
    + exact IH.
  - induction ns as [|n ns IH]; cbn [filter]; [reflexivity|].
    destruct (negb (String.eqb (id n) i)) eqn:Hi;
      destruct (negb (String.eqb (id n) j)) eqn:Hj;
      cbn [filter]; rewrite ?Hi, ?Hj; now (f_equal + idtac).
Qed.

(** X15.  After an update that carries no [id] key, the updated id denotes
    the merge of the note it denoted with the update, and every other id
    denotes the note it denoted before. *)
Theorem lookup_after_update (i j : string) (u : PartialNote)
    (ns : list Note) :
  p_id u = None ->
  findNote j (App.updateNotes i u ns)
  = if String.eqb j i
    then option_map (fun n => spread n u) (findNote i ns)
    else findNote j ns.
Proof.
  intros Hu. unfold App.updateNotes.
  induction ns as [|n ns IH]; cbn [map findNote option_map].
  - now destruct (String.eqb j i).
  - destruct (String.eqb_spec (id n) i) as [Hni | Hni].
    + cbn [spread id]. rewrite Hu. cbn [override].
      destruct (String.eqb_spec j i) as [Hji | Hji].
      * subst j. rewrite (proj2 (String.eqb_eq _ _) Hni). reflexivity.
      * destruct (String.eqb_spec (id n) j) as [Hnj | _].
        -- exfalso. apply Hji. now rewrite <- Hnj.
        -- rewrite IH. destruct (String.eqb_spec j i); [contradiction|reflexivity].
    + destruct (String.eqb_spec j i) as [Hji | Hji].
      * subst j. destruct (String.eqb_spec (id n) i); [contradiction|].
        exact IH.
      * destruct (String.eqb (id n) j); [reflexivity|].
        rewrite IH. destruct (String.eqb_spec j i); [contradiction|reflexivity].
Qed.

Lemma lookup_after_update_witness :
  findNote "a" (App.updateNotes "a" (positionUpdate 7 9) (App.notes Sample.board))
  = Some (spread Sample.noteA (positionUpdate 7 9))
  /\ findNote "b" (App.updateNotes "a" (positionUpdate 7 9) (App.notes Sample.board))
     = Some Sample.noteB.
Proof.
  split.
  - exact (lookup_after_update "a" "a" (positionUpdate 7 9)
             (App.notes Sample.board) eq_refl).
  - exact (lookup_after_update "a" "b" (positionUpdate 7 9)
             (App.notes Sample.board) eq_refl).
Defined.

(** X16.  After an addition every id that denoted a note still denotes
    that note, even if the generated id clashes with it; an id that denoted
    nothing denotes the new note exactly when it is the generated id. *)
Theorem lookup_after_add (env : App.Env) (x0 y0 : Q)
    (noteColor : option string) (st : App.State) (j : string) :
  findNote j (App.notes (App.handleAddNote env x0 y0 noteColor st))
  = match findNote j (App.notes st) with
    | Some n => Some n
    | None =>
        if String.eqb (App.generateId env) j
        then Some (App.newNote env x0 y0
                     (App.pickColor noteColor (App.nextColorIndex st)))
        else None
    end.
Proof.
  cbn [App.handleAddNote App.notes].
  induction (App.notes st) as [|n ns IH]; cbn [app findNote].
  - reflexivity.
  - destruct (String.eqb (id n) j); [reflexivity | exact IH].
Qed.

(** ** Updates, composed *)

Lemma override_orElse {A : Type} (a b : option A) (v : A) :
  override a (override b v) = override (orElse a b) v.
Proof. now destruct a, b. Qed.

Lemma spread_spread n u1 u2 :
  spread (spread n u1) u2 = spread n (spreadPartial u1 u2).
Proof.
  unfold spread at 1 3. cbn [spread spreadPartial id x y content width height
                             color createdAt p_id p_x p_y p_content p_width
                             p_height p_color p_createdAt].
  now rewrite !override_orElse.
Qed.

(** X17.  Two updates of the same id act as the single update with their
    merged partial objects, the later winning key by key, provided the
    first does not rename the note.  So of two drag moves only the second
    shows. *)
Theorem updates_compose (i : string) (u1 u2 : PartialNote) (ns : list Note) :
  p_id u1 = None ->
  App.updateNotes i u2 (App.updateNotes i u1 ns)
  = App.updateNotes i (spreadPartial u1 u2) ns.
Proof.
  intros Hu1. unfold App.updateNotes. rewrite map_map. apply map_ext.
  intros n. destruct (String.eqb (id n) i) eqn:Hn.
  - cbn [spread id]. rewrite Hu1. cbn [override]. rewrite Hn.
    apply spread_spread.
  - now rewrite Hn.
Qed.

Lemma updates_compose_witness :
  App.updateNotes "a" (positionUpdate 7 9)
    (App.updateNotes "a" (positionUpdate 1 2) (App.notes Sample.board))
  = App.updateNotes "a" (positionUpdate 7 9) (App.notes Sample.board).
Proof.
  exact (updates_compose "a" (positionUpdate 1 2) (positionUpdate 7 9)
           (App.notes Sample.board) eq_refl).
Defined.

(** X18.  An update with an empty partial object changes nothing, whether
    or not the id is known. *)
Theorem empty_update_is_identity (i : string) (st : App.State) :
  App.handleUpdateNote i no_updates st = st.
Proof.
  destruct st as [ns sel idx]. unfold App.handleUpdateNote. cbn [App.notes
    App.selectedNoteId App.nextColorIndex]. f_equal.
  unfold App.updateNotes. rewrite <- (map_id ns) at 2. apply map_ext.
  intros n. destruct (String.eqb (id n) i); [|reflexivity]. now destruct n.
Qed.

(** ** Adding and deleting *)

Lemma removeNote_app i ns ms :
  App.removeNote i (ns ++ ms) = App.removeNote i ns ++ App.removeNote i ms.
Proof. unfold App.removeNote. apply filter_app. Qed.

Lemma generateId_truthy env :
  App.truthy (Some (App.generateId env)) = Some (App.generateId env).
Proof. reflexivity. Qed.

Lemma deleteKey_cases (e : App.KeyboardEvent) :
  App.key e = "Delete"%string \/ App.key e = "Backspace"%string ->
  (String.eqb (App.key e) "Delete" || String.eqb (App.key e) "Backspace") = true
  /\ String.eqb (App.key e) "Escape" = false.
Proof. intros [-> | ->]; split; reflexivity. Qed.

Lemma findNote_removeNote_same i ns : findNote i (App.removeNote i ns) = None.
Proof.
  unfold App.removeNote.
  induction ns as [|n ns IH]; cbn [filter findNote]; [reflexivity|].
  destruct (String.eqb (id n) i) eqn:Hn; cbn [negb findNote]; [exact IH|].
  now rewrite Hn.
Qed.

(** X19.  Pressing Delete or Backspace outside an editable field removes
    every note carrying the selected id and clears the selection; the rest
    of the collection keeps its order. *)
Theorem delete_key_removes_selected (e : App.KeyboardEvent) (st : App.State)
    (sel : string) :
  App.key e = "Delete"%string \/ App.key e = "Backspace"%string ->
  App.inEditable e = false ->
  App.selectedNoteId st = Some sel ->
  sel <> ""%string ->
  App.notes (App.handleKeyDown e st) = App.removeNote sel (App.notes st)
  /\ App.selectedNoteId (App.handleKeyDown e st) = None
  /\ findNote sel (App.notes (App.handleKeyDown e st)) = None.
Proof.
  intros Hkey Hed Hsel Hne.
  destruct (deleteKey_cases e Hkey) as [Hdel Hesc].
  assert (Htruthy : App.truthy (App.selectedNoteId st) = Some sel).
  { rewrite Hsel. cbn [App.truthy].
    destruct (String.eqb_spec sel ""); [contradiction | reflexivity]. }
  unfold App.handleKeyDown, App.escapeKey.
  rewrite Hdel, Htruthy, Hed, Hesc.
  cbn [App.handleDeleteNote App.notes App.selectedNoteId].
  rewrite Hsel. cbn [App.isSelected]. rewrite String.eqb_refl.
  repeat split. apply findNote_removeNote_same.
Qed.

Lemma delete_key_removes_selected_witness :
  map id (App.notes (App.handleKeyDown Scenario.deleteKey Sample.board))
  = ["b"%string]
  /\ App.selectedNoteId (App.handleKeyDown Scenario.deleteKey Sample.board)
     = None.
Proof.
  destruct (delete_key_removes_selected Scenario.deleteKey Sample.board "a"
              (or_introl eq_refl) eq_refl eq_refl)
    as (Hnotes & Hsel & _).
  - intros H. discriminate H.
  - split; [rewrite Hnotes; reflexivity | exact Hsel].
Defined.

(** X20.  A key pressed while an editable field has the focus never
    changes the collection: Backspace and Delete typed into a note do not
    delete it. *)
Theorem typing_keeps_collection (e : App.KeyboardEvent) (st : App.State) :
  App.inEditable e = true ->
  App.notes (App.handleKeyDown e st) = App.notes st.
Proof.
  intros Hed.
  assert (Hesc : forall s, App.notes (App.escapeKey e s) = App.notes s).
  { intros s. unfold App.escapeKey.
    now destruct (String.eqb (App.key e) "Escape"). }
  unfold App.handleKeyDown. rewrite Hed.
  destruct (String.eqb (App.key e) "Delete" || String.eqb (App.key e) "Backspace");
    [|apply Hesc].
  destruct (App.truthy (App.selectedNoteId st)); [reflexivity | apply Hesc].
Qed.

Lemma typing_keeps_collection_witness :
  App.notes (App.handleKeyDown Scenario.backspaceInEditor Sample.board)
  = [Sample.noteA; Sample.noteB].
Proof.
  exact (typing_keeps_collection Scenario.backspaceInEditor Sample.board
           eq_refl).
Defined.

(** X21.  Adding a note and then pressing Delete or Backspace, outside an
    editable field, gives back the collection as it was before the
    addition and leaves nothing selected, provided the generated id was
    not already in use. *)
Theorem add_then_delete_key_restores (env : App.Env) (x0 y0 : Q)
    (noteColor : option string) (e : App.KeyboardEvent) (st : App.State) :
  App.key e = "Delete"%string \/ App.key e = "Backspace"%string ->
  App.inEditable e = false ->
  ~ In (App.generateId env) (map id (App.notes st)) ->
  let st' := App.handleKeyDown e (App.handleAddNote env x0 y0 noteColor st) in
  App.notes st' = App.notes st /\ App.selectedNoteId st' = None.
Proof.
  intros Hkey Hed Hfresh st'. subst st'.
  destruct (deleteKey_cases e Hkey) as [Hdel Hesc].
  unfold App.handleKeyDown, App.escapeKey. rewrite Hdel.
  cbn [App.handleAddNote App.selectedNoteId App.newNote id].
  rewrite generateId_truthy, Hed, Hesc.
  cbn [App.handleDeleteNote App.handleAddNote App.notes App.selectedNoteId
       App.isSelected App.newNote id].
  rewrite String.eqb_refl. split; [|reflexivity].
  rewrite removeNote_app, (removeNote_unknown _ _ Hfresh).
  unfold App.removeNote. cbn [filter App.newNote id].
  rewrite String.eqb_refl. cbn [negb]. apply app_nil_r.
Qed.

Lemma add_then_delete_key_restores_witness :
  App.notes (App.handleKeyDown Scenario.deleteKey
               (App.handleAddNote Sample.env 10 20 None Sample.board))
  = [Sample.noteA; Sample.noteB]
  /\ App.selectedNoteId
       (App.handleKeyDown Scenario.deleteKey
          (App.handleAddNote Sample.env 10 20 None Sample.board))
     = None.
Proof.
  apply (add_then_delete_key_restores Sample.env 10 20 None
           Scenario.deleteKey Sample.board (or_introl eq_refl) eq_refl).
  cbn. intros [H | [H | H]]; [discriminate H | discriminate H | exact H].
Defined.

(** ** The selection names a note *)

Lemma updateNotes_ids i u ns :
  p_id u = None -> map id (App.updateNotes i u ns) = map id ns.
Proof.
  intros Hu. unfold App.updateNotes. rewrite map_map. apply map_ext.
  intros n. destruct (String.eqb (id n) i); [|reflexivity].
  cbn [spread id]. now rewrite Hu.
Qed.

Lemma removeNote_keeps_other i s ns :
  s <> i -> In s (map id ns) -> In s (map id (App.removeNote i ns)).
Proof.
  intros Hne Hin. apply in_map_iff in Hin. destruct Hin as (n & Hid & Hn).
  apply in_map_iff. exists n. split; [exact Hid|].
  unfold App.removeNote. apply filter_In. split; [exact Hn|].
  destruct (String.eqb_spec (id n) i) as [Heq | _]; [|reflexivity].
  exfalso. apply Hne. now rewrite <- Hid.
Qed.

Lemma handleDeleteNote_selectionValid i st :
  selectionValid st -> selectionValid (App.handleDeleteNote i st).
Proof.
  unfold selectionValid.
  cbn [App.handleDeleteNote App.selectedNoteId App.notes].
  destruct (App.selectedNoteId st) as [s|]; cbn [App.isSelected];
    [|intros _; exact I].
  destruct (String.eqb_spec s i) as [_ | Hne]; [intros _; exact I|].
  now apply removeNote_keeps_other.
Qed.

(** X22.  If the selection names a note of the collection (or is empty),
    it still does after any command the components issue, as long as a
    selection command names an existing note, and after any key press.
    Deleting the selected note leaves no dangling selection. *)
Theorem selection_stays_valid (env : App.Env) (c : Command)
    (e : App.KeyboardEvent) (st : App.State) :
  issued c ->
  selectsExisting c st ->
  selectionValid st ->
  selectionValid (App.exec env c st)
  /\ selectionValid (App.handleKeyDown e st).
Proof.
  intros Hc Hsel Hst. split.
  - destruct (issued_inversion c Hc)
      as [[i ->] | [(x0 & y0 & cst & ->) | [(i & nx & ny & ->)
         | [(i & w & h & ->) | [(i & html & ->) | [i ->]]]]]];
      cbn [App.exec].
    + destruct i as [i|]; [exact Hsel | exact I].
    + unfold selectionValid.
      cbn [App.handleAddNote App.selectedNoteId App.notes].
      rewrite map_app. apply in_or_app. right. now left.
    + unfold selectionValid in *.
      cbn [App.handleUpdateNote App.selectedNoteId App.notes].
      now rewrite updateNotes_ids.
    + unfold selectionValid in *.
      cbn [App.handleUpdateNote App.selectedNoteId App.notes].
      now rewrite updateNotes_ids.
    + unfold selectionValid in *.
      cbn [App.handleUpdateNote App.selectedNoteId App.notes].
      now rewrite updateNotes_ids.
    + now apply handleDeleteNote_selectionValid.
  - assert (Hesc : forall s, selectionValid s -> selectionValid (App.escapeKey e s)).
    { intros s Hs. unfold App.escapeKey.
      destruct (String.eqb (App.key e) "Escape"); [exact I | exact Hs]. }
    unfold App.handleKeyDown.
    destruct (String.eqb (App.key e) "Delete" || String.eqb (App.key e) "Backspace");
      [|now apply Hesc].
    destruct (App.truthy (App.selectedNoteId st)) as [sel|]; [|now apply Hesc].
    destruct (App.inEditable e); [exact Hst|].
    apply Hesc. now apply handleDeleteNote_selectionValid.
Qed.

Lemma selection_stays_valid_witness :
  selectionValid
    (App.exec Sample.env
       (NoteComponent.deleteOnClick Sample.propsA) Sample.board)
  /\ selectionValid (App.handleKeyDown Scenario.deleteKey Sample.board).
Proof.
  apply (selection_stays_valid Sample.env
           (NoteComponent.deleteOnClick Sample.propsA)
           Scenario.deleteKey Sample.board).
  - apply IssuedByDeleteButton.
  - exact I.
  - cbn. left. reflexivity.
Defined.

(** ** Resizing a note *)

(** X23.  A move of the resize handle sets the note's width to
    [max(200, w0 + dx / s)] and its height to [max(100, h0 + dy / s)],
    where [w0], [h0] and the scale [s] are the ones of the press and
    (dx, dy) is the pointer's displacement since the press; the note's
    corner, content, colour, id and creation time stay as they are, and
    the result is never smaller than 200 by 100. *)
Theorem resize_move_sets_clamped_size (env : App.Env)
    (props : NoteComponent.Props) (down e : MouseEvent)
    (app : App.State) (n : Note) :
  findNote (id (NoteComponent.note props)) (App.notes app) = Some n ->
  let s := NoteComponent.canvasScale props in
  let w := Math_max 200 (width (NoteComponent.note props)
                         + (clientX e - clientX down) / s) in
  let h := Math_max 100 (height (NoteComponent.note props)
                         + (clientY e - clientY down) / s) in
  let app' :=
    App.exec env
      (NoteComponent.handleResize (NoteComponent.resizeMouseDown props down) e)
      app in
  findNote (id (NoteComponent.note props)) (App.notes app')
  = Some {| id := id n; x := x n; y := y n; content := content n;
            width := w; height := h;
            color := color n; createdAt := createdAt n |}
  /\ (200 <= w /\ 100 <= h).
Proof.
  intros Hfind s w h app'. subst app'. split.
  - cbn [NoteComponent.handleResize NoteComponent.resizeMouseDown
         NoteComponent.resizeProps NoteComponent.startX NoteComponent.startY
         NoteComponent.startWidth NoteComponent.startHeight
         App.exec App.handleUpdateNote App.notes].
    erewrite findNote_updateNotes; [|reflexivity|exact Hfind].
    reflexivity.
  - split; apply Math_max_lower.
Qed.

Lemma resize_move_sets_clamped_size_witness :
  exists n',
    findNote (id (NoteComponent.note Sample.propsA))
      (App.notes
         (App.exec Sample.env
            (NoteComponent.handleResize
               (NoteComponent.resizeMouseDown Sample.propsA
                  (Sample.press 400 300 ResizeHandle))
               (Sample.press 500 0 ResizeHandle))
            Sample.board))
    = Some n'
    /\ width n' == 350 /\ height n' == 100
    /\ x n' = x Sample.noteA /\ y n' = y Sample.noteA.
Proof.
  destruct (resize_move_sets_clamped_size Sample.env Sample.propsA
              (Sample.press 400 300 ResizeHandle)
              (Sample.press 500 0 ResizeHandle)
              Sample.board Sample.noteA eq_refl) as [Hfind _].
  eexists. split; [exact Hfind|].
  repeat split; vm_compute; reflexivity.
Defined.

(** ** One press, at most one gesture *)

(** X24.  With no gesture in progress, a press starts at most one of a
    pan, a drag and a resize, wherever it lands and whatever the button. *)
Theorem press_starts_at_most_one_gesture (props : NoteComponent.Props)
    (e : MouseEvent) (cst : Canvas.State) (nst : NoteComponent.State) :
  Canvas.isPanning cst = false ->
  NoteComponent.isDragging nst = false ->
  (Routing.sessions (Routing.mouseDown props e cst nst) <= 1)%nat.
Proof.
  intros Hpan Hdrag.
  unfold Routing.mouseDown, Routing.sessions, NoteComponent.handleMouseDown,
    NoteComponent.intercepted, Canvas.handleCanvasMouseDown.
  destruct (target e); destruct (Canvas.startsPan e);
    cbn [fst snd Routing.canvasAfter Routing.noteAfter Routing.resizeAfter
         Canvas.isPanning NoteComponent.isDragging];
    rewrite ?Hpan, ?Hdrag; cbn; lia.
Qed.

Lemma press_starts_at_most_one_gesture_witness :
  Routing.sessions
    (Routing.mouseDown Sample.propsA (Scenario.middlePress 600 400 NoteToolbar)
       Canvas.initial NoteComponent.initial) = 1%nat
  /\ (Routing.sessions
        (Routing.mouseDown Sample.propsA
           (Scenario.middlePress 600 400 NoteToolbar)
           Canvas.initial NoteComponent.initial) <= 1)%nat.
Proof.
  split; [reflexivity|].
  exact (press_starts_at_most_one_gesture Sample.propsA
           (Scenario.middlePress 600 400 NoteToolbar)
           Canvas.initial NoteComponent.initial eq_refl eq_refl).
Defined.

(** X25.  A primary-button press on a note's toolbar, its delete button or
    its editor starts nothing and issues nothing: the note ignores it, and
    the canvas, to which it bubbles, does not pan because the press is not
    on the canvas itself. *)
Theorem primary_press_on_controls_is_inert (props : NoteComponent.Props)
    (e : MouseEvent) (cst : Canvas.State) (nst : NoteComponent.State) :
  button e = 0%Z ->
  NoteComponent.intercepted e = true ->
  Routing.mouseDown props e cst nst
  = {| Routing.canvasAfter := cst;
       Routing.noteAfter := nst;
       Routing.resizeAfter := None;
       Routing.commands := [] |}.
Proof.
  intros Hb Hi.
  unfold Routing.mouseDown, NoteComponent.handleMouseDown,
    Canvas.handleCanvasMouseDown, Canvas.startsPan, onCanvas.
  rewrite Hi, Hb. unfold NoteComponent.intercepted in Hi.
  destruct (target e); try discriminate Hi; reflexivity.
Qed.

Lemma primary_press_on_controls_is_inert_witness :
  Routing.sessions
    (Routing.mouseDown Sample.propsA (Sample.press 600 400 NoteEditor)
       Canvas.initial NoteComponent.initial) = 0%nat.
Proof.
  rewrite (primary_press_on_controls_is_inert Sample.propsA
             (Sample.press 600 400 NoteEditor)
             Canvas.initial NoteComponent.initial eq_refl eq_refl).
  reflexivity.
Defined.

(** ** The layers panel *)

Lemma layerNumbersFrom_spec total : forall ns index,
  (index + List.length ns = total)%nat ->
  Render.layerNumbersFrom total index ns = rev (seq 1 (List.length ns)).
Proof.
  induction ns as [|n ns IH]; intros index Hlen; cbn [Render.layerNumbersFrom].
  - reflexivity.
  - cbn [List.length] in *. rewrite seq_S, rev_app_distr. cbn [rev app].
    f_equal; [lia|]. apply IH. lia.
Qed.

(** X26.  The layers panel numbers the notes downwards from the number of
    notes to 1, in collection order: the numbers are distinct and the note
    added last is always layer 1. *)
Theorem layer_numbers_count_down (ns : list Note) :
  Render.layerNumbers ns = rev (seq 1 (List.length ns)).
Proof. unfold Render.layerNumbers. now apply layerNumbersFrom_spec. Qed.

(** ** Round-robin colours *)

Lemma mod_six (k r : nat) : (r < 6)%nat -> Nat.modulo (6 * k + r) 6 = r.
Proof.
  intros Hr. rewrite Nat.add_comm, Nat.mul_comm, Nat.Div0.mod_add.
  now apply Nat.mod_small.
Qed.

(** The colour lookup of [App] on six consecutive counter values, and on
    explicit colours: an empty string counts as no colour, any other is
    used as given. *)
Lemma pickColor_round_robin (k : nat) (a : Ascii.ascii) (c : string) :
  map (App.pickColor None) (seq (6 * k) 6) = App.NOTE_COLORS
  /\ App.pickColor (Some ""%string) k = App.pickColor None k
  /\ App.pickColor (Some (String a c)) k = String a c.
Proof.
  split; [|split; reflexivity].
  cbn [seq map]. unfold App.pickColor.
  change (List.length App.NOTE_COLORS) with 6%nat.
  rewrite <- (Nat.add_0_r (6 * k)) at 1.
  rewrite <- (Nat.add_1_r (6 * k)).
  replace (S (6 * k + 1)) with (6 * k + 2)%nat by lia.
  replace (S (6 * k + 2)) with (6 * k + 3)%nat by lia.
  replace (S (6 * k + 3)) with (6 * k + 4)%nat by lia.
  replace (S (6 * k + 4)) with (6 * k + 5)%nat by lia.
  rewrite !mod_six by lia. reflexivity.
Qed.

Lemma even_mod_six (i : nat) : Nat.even (Nat.modulo i 6) = Nat.even i.
Proof.
  rewrite (Nat.div_mod_eq i 6) at 2.
  rewrite Nat.even_add, Nat.even_mul. cbn [Nat.even orb].
  now destruct (Nat.even (Nat.modulo i 6)).
Qed.

(** The colour lookup of the canvas: navy at an even counter, teal at an
    odd one. *)
Lemma canvas_colours_alternate (st : Canvas.State) :
  Canvas.nextColor st
  = if Nat.even (Canvas.nextColorIndex st) then "navy"%string
    else "teal"%string.
Proof.
  unfold Canvas.nextColor. rewrite <- even_mod_six.
  change (List.length Canvas.NOTE_COLORS) with 6%nat.
  pose proof (Nat.mod_upper_bound (Canvas.nextColorIndex st) 6) as Hlt.
  destruct (Nat.modulo (Canvas.nextColorIndex st) 6) as [|[|[|[|[|[|r]]]]]];
    try reflexivity.
  exfalso. assert (H6 : (6 <> 0)%nat) by discriminate.
  specialize (Hlt H6). lia.
Qed.

(** ** The keyboard, at the edges *)

Lemma handleSelectNote_None_idle st :
  App.selectedNoteId st = None -> App.handleSelectNote None st = st.
Proof. destruct st as [ns sel idx]. cbn. now intros ->. Qed.

(** X29.  Escape clears the selection and keeps the collection; with
    nothing selected no key changes the state at all; and a key other than
    Delete, Backspace and Escape never changes it. *)
Theorem keyboard_edge_cases (e : App.KeyboardEvent) (st : App.State) :
  (App.key e = "Escape"%string ->
   App.selectedNoteId (App.handleKeyDown e st) = None
   /\ App.notes (App.handleKeyDown e st) = App.notes st)
  /\ (App.selectedNoteId st = None -> App.handleKeyDown e st = st)
  /\ (String.eqb (App.key e) "Delete" = false ->
      String.eqb (App.key e) "Backspace" = false ->
      String.eqb (App.key e) "Escape" = false ->
      App.handleKeyDown e st = st).
Proof.
  split; [|split].
  - intros Hk. unfold App.handleKeyDown, App.escapeKey. rewrite Hk.
    cbn. split; reflexivity.
  - intros Hsel. unfold App.handleKeyDown, App.escapeKey.
    rewrite Hsel. cbn [App.truthy].
    destruct (String.eqb (App.key e) "Delete" || String.eqb (App.key e) "Backspace");
      destruct (String.eqb (App.key e) "Escape");
      reflexivity || now apply handleSelectNote_None_idle.
  - intros Hd Hb He. unfold App.handleKeyDown, App.escapeKey.
    now rewrite Hd, Hb, He.
Qed.

Lemma keyboard_edge_cases_witness :
  App.selectedNoteId
    (App.handleKeyDown {| App.key := "Escape"; App.inEditable := true |}
       Sample.board) = None
  /\ App.handleKeyDown Scenario.deleteKey App.initial = App.initial
  /\ App.handleKeyDown {| App.key := "a"; App.inEditable := false |}
       Sample.board = Sample.board.
Proof.
  split; [|split].
  - exact (proj1 (proj1 (keyboard_edge_cases
                           {| App.key := "Escape"; App.inEditable := true |}
                           Sample.board) eq_refl)).
  - exact (proj1 (proj2 (keyboard_edge_cases Scenario.deleteKey App.initial))
             eq_refl).
  - exact (proj2 (proj2 (keyboard_edge_cases
                           {| App.key := "a"; App.inEditable := false |}
                           Sample.board)) eq_refl eq_refl eq_refl).
Defined.

(** ** World to screen and back *)

(** X30.  For a scale within the zoom bounds, the world point under the
    place where a world point is drawn is that world point: a note's
    corner converts to the screen and back without moving. *)
Theorem world_round_trip (w : Point) (v : CanvasState) :
  Canvas.inBounds (scale v) ->
  pt_eq (Canvas.toWorld (Canvas.toScreen w v) v) w.
Proof.
  intros Hv. apply inBounds_nonzero in Hv.
  unfold pt_eq, Canvas.toScreen, Canvas.toWorld; cbn [px py].
  split; field; exact Hv.
Qed.

Lemma world_round_trip_witness :
  pt_eq (Canvas.toWorld (Canvas.toScreen (mkPoint (-50) 25) Sample.panned)
           Sample.panned)
        (mkPoint (-50) 25).
Proof.
  apply (world_round_trip (mkPoint (-50) 25) Sample.panned).
  unfold Canvas.inBounds, Canvas.MIN_SCALE, Canvas.MAX_SCALE.
  cbn [Sample.panned scale]. split; lra.
Defined.

(** ** Colours over successive additions *)

Lemma map_seq_succ {A : Type} (f : nat -> A) (n : nat) :
  map f (seq 0 (S n)) = f 0%nat :: map (fun j => f (S j)) (seq 0 n).
Proof. cbn [seq map]. now rewrite <- seq_shift, map_map. Qed.

Lemma addsAfterRender_colours (rs : list AppClosure.Request) : forall st,
  map color (App.notes (AppClosure.addsAfterRender rs st))
  = map color (App.notes st)
    ++ map (fun j => AppClosure.fallback (App.nextColorIndex st + j))
           (seq 0 (List.length rs))
  /\ App.nextColorIndex (AppClosure.addsAfterRender rs st)
     = (App.nextColorIndex st + List.length rs)%nat.
Proof.
  unfold AppClosure.addsAfterRender.
  induction rs as [|[[env x0] y0] rs IH]; intros st; cbn [fold_left List.length].
  - cbn [seq map]. rewrite app_nil_r. split; [reflexivity | lia].
  - destruct (IH (AppClosure.handleAddNote (App.nextColorIndex st) env x0 y0
                    None st)) as [Hc Hn].
    rewrite Hc, Hn. cbn [AppClosure.handleAddNote App.notes App.nextColorIndex].
    split; [|lia].
    rewrite map_app, <- app_assoc. f_equal.
    rewrite map_seq_succ. cbn [map app App.newNote color].
    rewrite Nat.add_0_r. f_equal.
    apply map_ext. intros j. f_equal. lia.
Qed.

Lemma addsInOneBatch_colours (k : nat) (rs : list AppClosure.Request) :
  forall st,
  map color (App.notes (AppClosure.addsInOneBatch k rs st))
  = map color (App.notes st) ++ repeat (AppClosure.fallback k) (List.length rs)
  /\ App.nextColorIndex (AppClosure.addsInOneBatch k rs st)
     = (App.nextColorIndex st + List.length rs)%nat.
Proof.
  unfold AppClosure.addsInOneBatch.
  induction rs as [|[[env x0] y0] rs IH]; intros st; cbn [fold_left List.length].
  - cbn [repeat]. rewrite app_nil_r. split; [reflexivity | lia].
  - destruct (IH (AppClosure.handleAddNote k env x0 y0 None st)) as [Hc Hn].
    rewrite Hc, Hn. cbn [AppClosure.handleAddNote App.notes App.nextColorIndex].
    split; [|lia].
    rewrite map_app, <- app_assoc. reflexivity.
Qed.

(** X27.  Additions without an explicit colour, each handled by the
    callback of the render that followed the previous one, advance [App]'s
    counter by one each and take the six palette colours in order,
    starting over after the sixth.  Additions all handled by the callback
    of one render advance the counter just the same but all take the one
    colour of the counter value that callback captured. *)
Theorem colourless_adds_take_palette_in_turn
    (rs : list AppClosure.Request) (k m : nat) (st : App.State) :
  (forall env x0 y0 noteColor,
      App.handleAddNote env x0 y0 noteColor st
      = AppClosure.handleAddNote (App.nextColorIndex st) env x0 y0 noteColor st)
  /\ (map color (App.notes (AppClosure.addsAfterRender rs st))
      = map color (App.notes st)
        ++ map (fun j => AppClosure.fallback (App.nextColorIndex st + j))
               (seq 0 (List.length rs))
      /\ App.nextColorIndex (AppClosure.addsAfterRender rs st)
         = (App.nextColorIndex st + List.length rs)%nat)
  /\ map AppClosure.fallback (seq (6 * m) 6) = App.NOTE_COLORS
  /\ (map color (App.notes (AppClosure.addsInOneBatch k rs st))
      = map color (App.notes st)
        ++ repeat (AppClosure.fallback k) (List.length rs)
      /\ App.nextColorIndex (AppClosure.addsInOneBatch k rs st)
         = (App.nextColorIndex st + List.length rs)%nat).
Proof.
  split; [reflexivity|].
  split; [apply addsAfterRender_colours|].
  split; [|apply addsInOneBatch_colours].
  exact (proj1 (pickColor_round_robin m Ascii.zero EmptyString)).
Qed.

Lemma gestures_colours (gs : list CanvasAdds.Gesture) : forall st,
  map CanvasAdds.colourAsked (snd (CanvasAdds.gestures gs st))
  = map (fun j => Some (CanvasAdds.turn (Canvas.nextColorIndex st + j)))
        (seq 0 (List.length (snd (CanvasAdds.gestures gs st))))
  /\ Canvas.nextColorIndex (fst (CanvasAdds.gestures gs st))
     = (Canvas.nextColorIndex st
        + List.length (snd (CanvasAdds.gestures gs st)))%nat.
Proof.
  induction gs as [|g gs IH]; intros st; cbn [CanvasAdds.gestures fst snd].
  - cbn. split; [reflexivity | lia].
  - assert (Hg : CanvasAdds.gesture st g = (st, [])
                 \/ exists x0 y0,
                      CanvasAdds.gesture st g
                      = (Canvas.setNextColorIndex S st,
                         [OnAddNote x0 y0 (Some (Canvas.nextColor st))])).
    { destruct g as [[rect|] | rect e]; cbn [CanvasAdds.gesture].
      - right. unfold Canvas.handleAddNote. now eexists _, _.
      - now left.
      - unfold Canvas.handleDoubleClick. destruct (onCanvas e).
        + right. now eexists _, _.
        + now left. }
    destruct Hg as [-> | (x0 & y0 & ->)]; cbn [fst snd app].
    + apply IH.
    + destruct (IH (Canvas.setNextColorIndex S st)) as [Hc Hn].
      cbn [Canvas.setNextColorIndex Canvas.nextColorIndex] in Hc, Hn.
      cbn [List.length map CanvasAdds.colourAsked]. rewrite Hc, Hn.
      split; [|lia].
      rewrite map_seq_succ, Nat.add_0_r.
      unfold CanvasAdds.turn at 2. rewrite <- canvas_colours_alternate.
      f_equal. apply map_ext. intros j. do 2 f_equal. lia.
Qed.

(** X28.  Over any sequence of add-button clicks and double clicks on the
    canvas, each handled after the render that followed the previous one,
    every gesture that takes effect asks for one note and advances the
    canvas counter by one, and the colours asked for alternate: navy when
    the counter is even, teal when it is odd. *)
Theorem canvas_adds_alternate_colours (gs : list CanvasAdds.Gesture)
    (st : Canvas.State) :
  map CanvasAdds.colourAsked (snd (CanvasAdds.gestures gs st))
  = map (fun j => Some (CanvasAdds.turn (Canvas.nextColorIndex st + j)))
        (seq 0 (List.length (snd (CanvasAdds.gestures gs st))))
  /\ Canvas.nextColorIndex (fst (CanvasAdds.gestures gs st))
     = (Canvas.nextColorIndex st
        + List.length (snd (CanvasAdds.gestures gs st)))%nat.
Proof. apply gestures_colours. Qed.

Example canvas_adds_sample :
  map CanvasAdds.colourAsked
    (snd (CanvasAdds.gestures
            [CanvasAdds.ByButton (Some Sample.rect);
             CanvasAdds.ByDoubleClick Sample.rect Sample.doubleClick;
             CanvasAdds.ByButton None;
             CanvasAdds.ByButton (Some Sample.rect)]
            Canvas.initial))
  = [Some "navy"; Some "teal"; Some "navy"]%string.
Proof. reflexivity. Qed.

Example colourless_adds_sample :
  map color
    (App.notes
       (AppClosure.addsAfterRender
          [(Sample.env, 0, 0); (Sample.env, 0, 0); (Sample.env, 0, 0)]
          App.initial))
  = ["yellow"; "blue"; "green"]%string
  /\ map color
       (App.notes
          (AppClosure.addsInOneBatch 0
             [(Sample.env, 0, 0); (Sample.env, 0, 0)] App.initial))
     = ["yellow"; "yellow"]%string.
Proof. split; reflexivity. Qed.
